(** * CoolRide Telegram bot (main.py): a shallow embedding and its properties

    The bot keeps one session per user in a module-level dictionary, walks
    the user through inline-keyboard menus, resolves place names with a
    geocoding web service and answers with a link to the route web app.

    Layout of this file
    - Part 1: Python strings (the [str] methods the bot calls) and their
      lemmas;
    - Part 2: Python values, floats and the geocoder;
    - Part 3: sessions, the handler monad and the three handlers;
    - Part 4: lemmas on the geocoder, the monad and the handlers;
    - Part 5: the properties of the specification, then (Part 5b) the
      remaining handlers, the routing of updates and properties of the bot
      as a whole;
    - Part 6: the handlers run on sample data.

    Text is [string], holding the UTF-8 bytes of the Python string. The bot
    searches, cuts and replaces with ASCII literals only ([in], [startswith],
    [replace], [split]); on UTF-8 these act byte by byte as Python does
    character by character, and they are defined in Part 1. The methods that
    read the interpreter's Unicode tables, [lower], [strip] and [title], and
    the constructor [int], are not the bot's code: like [float] they are an
    interface (class [PyStr]), known on ASCII text and otherwise whatever
    the interpreter makes them. *)

From Stdlib Require Import ZArith Ascii String.
From stdpp Require Import gmap strings list fin_maps pretty.

Local Open Scope Z_scope.

(* ===================================================================== *)
(** * Part 1: Python strings                                              *)
(* ===================================================================== *)

(** The line feed written [\n] in the source, and the double quote. *)
Definition LF : string := String "010"%char "".
Definition DQUOTE : string := String "034"%char "".

Definition str_nonempty (s : string) : bool :=
  match s with EmptyString => false | String _ _ => true end.

(** [s.startswith(p)]. *)
Fixpoint startswith (p s : string) : bool :=
  match p, s with
  | EmptyString, _ => true
  | String a p', String b s' => if decide (a = b) then startswith p' s' else false
  | String _ _, EmptyString => false
  end.

(** [sub in s]. *)
Fixpoint contains (sub s : string) : bool :=
  startswith sub s ||
  match s with
  | EmptyString => false
  | String _ s' => contains sub s'
  end.

(** The number of positions of [s] at which [sub] starts. *)
Fixpoint occurrences (sub s : string) : nat :=
  ((if startswith sub s then 1 else 0) +
   match s with
   | EmptyString => 0
   | String _ s' => occurrences sub s'
   end)%nat.

(** [s.replace(old, new)] for a non-empty [old] (the bot only passes
    literals): matches are found left to right and do not overlap. [skip]
    counts the characters of the current match still to be dropped. *)
Fixpoint replace_from (old new : string) (skip : nat) (s : string) : string :=
  match s with
  | EmptyString => EmptyString
  | String c s' =>
      match skip with
      | S k => replace_from old new k s'
      | O =>
          if startswith old s
          then new +:+ replace_from old new (String.length old - 1) s'
          else String c (replace_from old new O s')
      end
  end.

Definition replace (old new s : string) : string := replace_from old new 0 s.

(** [s.split(sep)] for a non-empty [sep]: the pieces between the
    non-overlapping matches of [sep], found left to right. *)
Fixpoint split_from (sep : string) (skip : nat) (s : string) : list string :=
  match s with
  | EmptyString => [EmptyString]
  | String c s' =>
      match skip with
      | S k => split_from sep k s'
      | O =>
          if startswith sep s
          then EmptyString :: split_from sep (String.length sep - 1) s'
          else match split_from sep O s' with
               | p :: ps => String c p :: ps
               | [] => [String c EmptyString]
               end
      end
  end.

Definition split (sep s : string) : list string := split_from sep 0 s.

(** [sep.join(l)]. *)
Fixpoint join (sep : string) (l : list string) : string :=
  match l with
  | [] => EmptyString
  | [x] => x
  | x :: l' => x +:+ sep +:+ join sep l'
  end.

(** ** ASCII text

    What [lower], [strip], [title] and [int] do with a string of ASCII
    characters; [PyStr] below ties the interpreter's functions to these. *)

Definition is_ascii_char (c : ascii) : bool := (nat_of_ascii c <? 128)%nat.

Fixpoint is_ascii (s : string) : bool :=
  match s with
  | EmptyString => true
  | String c s' => is_ascii_char c && is_ascii s'
  end.

Definition is_upper (c : ascii) : bool :=
  (65 <=? nat_of_ascii c)%nat && (nat_of_ascii c <=? 90)%nat.
Definition is_lower (c : ascii) : bool :=
  (97 <=? nat_of_ascii c)%nat && (nat_of_ascii c <=? 122)%nat.
Definition is_cased (c : ascii) : bool := is_upper c || is_lower c.

(** [str.isspace] on an ASCII character: tab, line feed, vertical tab, form
    feed, carriage return, the four separators 28 to 31 and the space. *)
Definition is_space (c : ascii) : bool :=
  let n := nat_of_ascii c in
  ((9 <=? n)%nat && (n <=? 13)%nat) || ((28 <=? n)%nat && (n <=? 32)%nat).

(** The white space [int] skips in ASCII text: that of [is_space] without
    the four separators ([int("\x1c1")] raises [ValueError]). *)
Definition is_int_space (c : ascii) : bool :=
  let n := nat_of_ascii c in
  ((9 <=? n)%nat && (n <=? 13)%nat) || (n =? 32)%nat.

Definition lower_char (c : ascii) : ascii :=
  if is_upper c then ascii_of_nat (nat_of_ascii c + 32) else c.
Definition upper_char (c : ascii) : ascii :=
  if is_lower c then ascii_of_nat (nat_of_ascii c - 32) else c.

(** [s.lower()] on ASCII text. *)
Fixpoint ascii_lower (s : string) : string :=
  match s with
  | EmptyString => EmptyString
  | String c s' => String (lower_char c) (ascii_lower s')
  end.

(** [s.title()] on ASCII text: a letter is upper-cased when the character
    before it is no letter, and lower-cased otherwise. *)
Fixpoint ascii_title_from (prev_cased : bool) (s : string) : string :=
  match s with
  | EmptyString => EmptyString
  | String c s' =>
      String (if prev_cased then lower_char c else upper_char c)
             (ascii_title_from (is_cased c) s')
  end.

Definition ascii_title (s : string) : string := ascii_title_from false s.

(** Leading, then trailing characters of the class [sp] removed. *)
Fixpoint lstrip (sp : ascii -> bool) (s : string) : string :=
  match s with
  | EmptyString => EmptyString
  | String c s' => if sp c then lstrip sp s' else s
  end.

Fixpoint rstrip (sp : ascii -> bool) (s : string) : string :=
  match s with
  | EmptyString => EmptyString
  | String c s' =>
      let r := rstrip sp s' in
      if sp c && negb (str_nonempty r) then EmptyString else String c r
  end.

(** [s.strip()] on ASCII text. *)
Definition ascii_strip (s : string) : string := rstrip is_space (lstrip is_space s).

Definition digit_val (c : ascii) : option Z :=
  let n := nat_of_ascii c in
  if (48 <=? n)%nat && (n <=? 57)%nat then Some (Z.of_nat (n - 48)) else None.

(** The digits after a first digit; one underscore may separate two digits. *)
Fixpoint digits_from (acc : Z) (s : string) : option Z :=
  match s with
  | EmptyString => Some acc
  | String c s' =>
      match digit_val c with
      | Some d => digits_from (10 * acc + d) s'
      | None =>
          if decide (c = "_"%char) then
            match s' with
            | String c' s'' =>
                match digit_val c' with
                | Some d => digits_from (10 * acc + d) s''
                | None => None
                end
            | EmptyString => None
            end
          else None
      end
  end.

Definition digits (s : string) : option Z :=
  match s with
  | String c s' =>
      match digit_val c with
      | Some d => digits_from d s'
      | None => None
      end
  | EmptyString => None
  end.

(** [int(s)] on ASCII text, in base ten; [None] stands for [ValueError].
    White space around the numeral is ignored, a sign may precede the
    digits. *)
Definition ascii_int (s : string) : option Z :=
  match rstrip is_int_space (lstrip is_int_space s) with
  | String "-"%char d => Z.opp <$> digits d
  | String "+"%char d => digits d
  | t => digits t
  end.

(** ** The interpreter's part

    [str.lower], [str.strip], [str.title] and [int] go by the Unicode
    tables of the interpreter: ['École'.lower()] is ['école'], [strip]
    removes a no-break space, [int('１')] is [1]. The bot is verified
    against any four functions with the properties below, which are those
    of Python:
    - on ASCII text they are the functions above; for [int] this is said
      of strings of at most 640 characters, since Python may be run with a
      limit on the digits it converts, which is 4300 unless set and never
      below 640;
    - [strip] removes white space only, so it leaves in front an ASCII
      character that is none. *)
Class PyStr := {
  lower : string -> string;
  strip : string -> string;
  title : string -> string;
  (** [int(s)]; [None] stands for [ValueError]. *)
  py_int : string -> option Z;
  lower_ascii s : is_ascii s = true -> lower s = ascii_lower s;
  strip_ascii s : is_ascii s = true -> strip s = ascii_strip s;
  title_ascii s : is_ascii s = true -> title s = ascii_title s;
  py_int_ascii s :
    is_ascii s = true -> (String.length s <= 640)%nat -> py_int s = ascii_int s;
  strip_head c s :
    is_ascii_char c = true -> is_space c = false ->
    exists s', strip (String c s) = String c s'
}.


Example split_example : split "to" "from marina bay to east coast park" = ["from marina bay "; " east coast park"].
Proof. reflexivity. Qed.

Example replace_example : replace "mood_" "" "mood_mood_food" = "food".
Proof. reflexivity. Qed.

Example ascii_lower_example : ascii_lower "From Marina Bay" = "from marina bay".
Proof. reflexivity. Qed.

Example ascii_strip_example : ascii_strip "  Hi there  " = "Hi there".
Proof. reflexivity. Qed.

Example ascii_title_example :
  ascii_title "nature" = "Nature" /\ ascii_title "mood_x1y" = "Mood_X1Y".
Proof. split; reflexivity. Qed.

Example ascii_int_example :
  ascii_int "2" = Some 2 /\ ascii_int "-1" = Some (-1) /\ ascii_int " 1_0 " = Some 10 /\
  ascii_int "abc" = None /\ ascii_int "" = None /\ ascii_int "1__0" = None /\
  ascii_int (String "028"%char "1") = None.
Proof. repeat split; reflexivity. Qed.


(** ** Lemmas on the string functions *)

Lemma str_app_cons c a b : String c a +:+ b = String c (a +:+ b).
Proof. reflexivity. Qed.

Lemma str_app_nil_l b : "" +:+ b = b.
Proof. reflexivity. Qed.

Lemma startswith_app p s : startswith p (p +:+ s) = true.
Proof.
  induction p as [|a p IH]; [done|].
  rewrite str_app_cons. simpl. by rewrite decide_True.
Qed.

Lemma str_nonempty_true s : str_nonempty s = true <-> s <> "".
Proof. by destruct s. Qed.

Lemma str_app_assoc (a b c : string) : (a +:+ b) +:+ c = a +:+ b +:+ c.
Proof. induction a as [|x a IH]; [done|]. rewrite !str_app_cons. by f_equal. Qed.

Lemma contains_occurrences sub s : contains sub s = false <-> occurrences sub s = 0%nat.
Proof.
  induction s as [|c s IH]; simpl.
  - destruct (startswith sub ""); simpl; split; (done || lia).
  - destruct (startswith sub (String c s)); simpl; [split; (done || lia)|done].
Qed.

Lemma replace_from_skip old new r s :
  replace_from old new (String.length r) (r +:+ s) = replace_from old new 0 s.
Proof.
  induction r as [|c r IH]; [done|].
  rewrite str_app_cons. simpl. apply IH.
Qed.

Lemma replace_absent old new s : contains old s = false -> replace old new s = s.
Proof.
  unfold replace. induction s as [|c s IH]; simpl; [done|].
  intros [Hp Hs]%orb_false_iff. rewrite Hp. f_equal. auto.
Qed.

Lemma replace_prefix old new s :
  old <> "" -> replace old new (old +:+ s) = new +:+ replace old new s.
Proof.
  unfold replace. destruct old as [|c r]; [done|]. intros _.
  rewrite str_app_cons. cbn [replace_from].
  rewrite <- str_app_cons, startswith_app. f_equal.
  replace (String.length (String c r) - 1)%nat with (String.length r) by (simpl; lia).
  apply replace_from_skip.
Qed.

Lemma split_from_skip sep r s :
  split_from sep (String.length r) (r +:+ s) = split_from sep 0 s.
Proof.
  induction r as [|c r IH]; [done|].
  rewrite str_app_cons. simpl. apply IH.
Qed.

Lemma occurrences_app_ge sub a s : (occurrences sub s <= occurrences sub (a +:+ s))%nat.
Proof.
  induction a as [|c a IH]; [done|].
  rewrite str_app_cons. simpl. lia.
Qed.

Lemma split_absent sep s : occurrences sep s = 0%nat -> split sep s = [s].
Proof.
  unfold split. induction s as [|c s IH]; simpl; [done|].
  destruct (startswith sep (String c s)); [lia|]. simpl.
  intros Hs. by rewrite IH.
Qed.

Lemma occurrences_at sep b : (1 <= occurrences sep (sep +:+ b))%nat.
Proof.
  destruct sep as [|c r].
  - rewrite str_app_nil_l. destruct b; simpl; lia.
  - rewrite str_app_cons. cbn [occurrences].
    rewrite <- str_app_cons, startswith_app. lia.
Qed.

(** A separator that occurs once cuts the string in two at that place. *)
Lemma split_once sep a b :
  sep <> "" -> occurrences sep (a +:+ sep +:+ b) = 1%nat ->
  split sep (a +:+ sep +:+ b) = [a; b].
Proof.
  intros Hsep. unfold split. induction a as [|c a IH].
  - destruct sep as [|c r]; [done|].
    rewrite str_app_nil_l, str_app_cons.
    cbn [occurrences split_from].
    rewrite <- str_app_cons, startswith_app. intros Hocc.
    replace (String.length (String c r) - 1)%nat with (String.length r) by (simpl; lia).
    rewrite split_from_skip.
    pose proof (occurrences_app_ge (String c r) r b).
    fold (split (String c r) b). rewrite split_absent; [done|lia].
  - rewrite str_app_cons.
    cbn [occurrences split_from].
    pose proof (occurrences_at sep b).
    pose proof (occurrences_app_ge sep a (sep +:+ b)).
    destruct (startswith sep (String c (a +:+ sep +:+ b))); [lia|].
    intros Hocc. rewrite IH; [done|lia].
Qed.

(** The ASCII [strip] leaves in front a character that is no white space. *)
Lemma ascii_strip_head c s :
  is_space c = false -> exists s', ascii_strip (String c s) = String c s'.
Proof.
  intros Hc. unfold ascii_strip. cbn [lstrip]. rewrite Hc. cbn [rstrip].
  rewrite Hc. by eexists.
Qed.


(* ===================================================================== *)
(** * Part 2: Python values, floats and the geocoder                      *)
(* ===================================================================== *)

(** Python's [float] belongs to the interpreter, not to the bot: the type,
    its constructor [float(...)], its truth value and the text an f-string
    prints for it are an interface the bot is verified against. *)
Class PyFloat := {
  float : Type;
  (** [float(s)] for a string; [None] stands for [ValueError]. *)
  float_of_str : string -> option float;
  (** [float(n)] for an integer; [None] stands for [OverflowError]. *)
  float_of_int : Z -> option float;
  (** [bool(x)]. *)
  float_truth : float -> bool;
  (** [str(x)], which is what [f"{x}"] prints. *)
  str_float : float -> string
}.

Inductive exn :=
| RequestException | JSONDecodeError | TypeError | KeyError | IndexError
| ValueError | OverflowError.

(** The outcome of a Python expression: a value or a raised exception. *)
Inductive Result (A : Type) :=
| Ok (a : A)
| Raise (e : exn).
Arguments Ok {A} a.
Arguments Raise {A} e.

#[global] Instance Result_ret : MRet Result := fun A a => Ok a.
#[global] Instance Result_bind : MBind Result := fun A B k r =>
  match r with
  | Ok a => k a
  | Raise e => Raise e
  end.

Definition or_raise {A} (e : exn) (o : option A) : Result A :=
  match o with
  | Some a => Ok a
  | None => Raise e
  end.

(** [l[i]] on a list: a negative index counts from the end. *)
Definition list_getitem {A} (l : list A) (i : Z) : Result A :=
  let n := Z.of_nat (length l) in
  let j := if i <? 0 then i + n else i in
  if (0 <=? j) && (j <? n) then or_raise IndexError (l !! Z.to_nat j)
  else Raise IndexError.

(** [d[k]] on the entries of a dictionary with string keys. *)
Fixpoint dict_lookup {A} (k : string) (d : list (string * A)) : option A :=
  match d with
  | [] => None
  | (k', v) :: d' => if decide (k' = k) then Some v else dict_lookup k d'
  end.

Section Bot.
Context `{PyFloat} {pystr : PyStr}.

(** What [resp.json()] can return. A dictionary is the list of its entries,
    keys distinct. *)
#[warnings="-register-all"]
Inductive pyval :=
| PNone
| PBool (b : bool)
| PInt (n : Z)
| PFloat (x : float)
| PStr (s : string)
| PList (l : list pyval)
| PDict (d : list (string * pyval)).

(** [bool(v)], the test of [if data:]. *)
Definition truthy (v : pyval) : bool :=
  match v with
  | PNone => false
  | PBool b => b
  | PInt n => negb (n =? 0)
  | PFloat x => float_truth x
  | PStr s => str_nonempty s
  | PList l => match l with [] => false | _ :: _ => true end
  | PDict d => match d with [] => false | _ :: _ => true end
  end.

(** [v[0]]. The keys of a JSON object are strings, so [0] is never one. *)
Definition getitem_0 (v : pyval) : Result pyval :=
  match v with
  | PList l => list_getitem l 0
  | PStr (String c _) => Ok (PStr (String c EmptyString))
  | PStr EmptyString => Raise IndexError
  | PDict _ => Raise KeyError
  | PNone | PBool _ | PInt _ | PFloat _ => Raise TypeError
  end.

(** [v[k]] for a string [k]. *)
Definition getitem_str (v : pyval) (k : string) : Result pyval :=
  match v with
  | PDict d => or_raise KeyError (dict_lookup k d)
  | _ => Raise TypeError
  end.

(** [float(v)]. *)
Definition py_float (v : pyval) : Result float :=
  match v with
  | PStr s => or_raise ValueError (float_of_str s)
  | PInt n => or_raise OverflowError (float_of_int n)
  | PBool b => or_raise OverflowError (float_of_int (if b then 1 else 0))
  | PFloat x => Ok x
  | PNone | PList _ | PDict _ => Raise TypeError
  end.

(** What the geocoding service does with one request. *)
Inductive Response :=
| request_failed                 (* [requests.get] raised: timeout, no network *)
| http_body (json : option pyval). (* a response; [None]: the body is not JSON *)

Definition response_json (resp : Response) : Result pyval :=
  match resp with
  | request_failed => Raise RequestException
  | http_body None => Raise JSONDecodeError
  | http_body (Some v) => Ok v
  end.

Definition geocode_url (place_name : string) : string :=
  "https://nominatim.openstreetmap.org/search?q=" +:+ place_name +:+
  ", Singapore&format=json&limit=1".

(** The body of the [try:] of [geocode_location], after the request. The
    result [Ok None] is leaving the [if data:] without returning. *)
Definition geocode_try (resp : Response) : Result (option (float * float)) :=
  data ← response_json resp;
  if truthy data then
    r ← getitem_0 data;
    lat ← getitem_str r "lat";
    lat ← py_float lat;
    r ← getitem_0 data;
    lon ← getitem_str r "lon";
    lon ← py_float lon;
    Ok (Some (lat, lon))
  else Ok None.

(** [except: pass] and the final [return None]: what [geocode_location]
    hands to its caller, as an outcome that could still be an exception. *)
Definition geocode_outcome (resp : Response) : Result (option (float * float)) :=
  match geocode_try resp with
  | Ok (Some c) => Ok (Some c)
  | Ok None => Ok None
  | Raise _ => Ok None
  end.

Definition geocode_result (resp : Response) : option (float * float) :=
  match geocode_outcome resp with
  | Ok r => r
  | Raise _ => None
  end.

(* ===================================================================== *)
(** * Part 3: sessions, the handler monad and the handlers                *)
(* ===================================================================== *)

(** An entry of [FALLBACK_PLACES]: a dictionary with the keys [name] and
    [reason]. *)
Record Place := { name : string; reason : string }.

(** A session dictionary. The handlers only ever use these five keys; a
    key that is absent is [None], and [{}] is [empty_session]. *)
Record Session := {
  mode : option string;
  mood : option string;
  recommendations : option (list Place);
  destination : option string;
  awaiting_start : option bool
}.

Definition empty_session : Session :=
  {| mode := None; mood := None; recommendations := None;
     destination := None; awaiting_start := None |}.

(** [session[key] = value], one function per key. *)
Definition set_mood (v : string) (s : Session) : Session :=
  {| mode := mode s; mood := Some v; recommendations := recommendations s;
     destination := destination s; awaiting_start := awaiting_start s |}.
Definition set_recommendations (v : list Place) (s : Session) : Session :=
  {| mode := mode s; mood := mood s; recommendations := Some v;
     destination := destination s; awaiting_start := awaiting_start s |}.
Definition set_destination (v : string) (s : Session) : Session :=
  {| mode := mode s; mood := mood s; recommendations := recommendations s;
     destination := Some v; awaiting_start := awaiting_start s |}.
Definition set_awaiting_start (v : bool) (s : Session) : Session :=
  {| mode := mode s; mood := mood s; recommendations := recommendations s;
     destination := destination s; awaiting_start := Some v |}.

Definition nature_places : list Place :=
  [ {| name := "Botanic Gardens"; reason := "UNESCO site with lush greenery" |};
    {| name := "East Coast Park"; reason := "Beachside cycling with sea breeze" |};
    {| name := "Punggol Waterway"; reason := "Peaceful waterfront trail" |} ].
Definition food_places : list Place :=
  [ {| name := "Tiong Bahru"; reason := "Hip cafes in heritage shophouses" |};
    {| name := "Joo Chiat"; reason := "Peranakan food and colorful streets" |};
    {| name := "Kampong Glam"; reason := "Middle Eastern eats near Haji Lane" |} ].
Definition views_places : list Place :=
  [ {| name := "Marina Bay Sands"; reason := "Iconic skyline views" |};
    {| name := "Gardens by the Bay"; reason := "Stunning Supertrees" |};
    {| name := "Henderson Waves"; reason := "Highest pedestrian bridge" |} ].

Definition FALLBACK_PLACES : gmap string (list Place) :=
  <["nature" := nature_places]> (<["food" := food_places]> (<["views" := views_places]> ∅)).

Record InlineKeyboardButton := Button { label : string; callback_data : string }.

(** The sender of an update: [update.effective_user]. *)
Record User := {
  effective_user_id : Z;
  username : option string;
  first_name : string
}.

(** What a handler does to the outside world, in order: the calls to the
    chat API and to the geocoding service, each request with the answer it
    got. Sending is taken to succeed. *)
Inductive Call :=
| answer
| reply_text (text : string)
    (reply_markup : option (list (list InlineKeyboardButton)))
    (parse_mode : option string)
| edit_message_text (text : string)
    (reply_markup : option (list (list InlineKeyboardButton)))
    (parse_mode : option string)
| requests_get (url : string) (resp : Response).

(** The state a handler runs in: the module-level [user_sessions] and the
    calls made so far. *)
Record World := {
  user_sessions : gmap string Session;
  calls : list Call
}.

(** The geocoding service: its answer to a request for [url] made when [t]
    calls have gone before. Any function is a possible service. *)
Variable net : nat -> string -> Response.

(** [APP_URL], read from the environment at start-up. *)
Variable APP_URL : string.

(** Handlers: state passing over [World], with exceptions. *)
Definition M (A : Type) : Type := World -> Result A * World.

#[local] Instance M_ret : MRet M := fun A a w => (Ok a, w).
#[local] Instance M_bind : MBind M := fun A B k m w =>
  match m w with
  | (Ok a, w') => k a w'
  | (Raise e, w') => (Raise e, w')
  end.

Definition lift {A} (r : Result A) : M A := fun w => (r, w).

Definition call (c : Call) : M unit := fun w =>
  (Ok tt, {| user_sessions := user_sessions w; calls := calls w ++ [c] |}).

(** [user_sessions.get(user_id, {})]. *)
Definition sessions_get (user_id : string) : M Session := fun w =>
  (Ok (default empty_session (user_sessions w !! user_id)), w).

(** [user_id in user_sessions]. *)
Definition sessions_has (user_id : string) : M bool := fun w =>
  (Ok (bool_decide (is_Some (user_sessions w !! user_id))), w).

(** [user_sessions[user_id] = s]. *)
Definition sessions_set (user_id : string) (s : Session) : M unit := fun w =>
  (Ok tt, {| user_sessions := <[user_id := s]> (user_sessions w); calls := calls w |}).

(** [user_sessions[user_id][key] = value], [f] being the assignment to the
    key: the subscript [user_sessions[user_id]] raises on a missing user. *)
Definition session_setitem (user_id : string) (f : Session -> Session) : M unit := fun w =>
  match user_sessions w !! user_id with
  | Some s => (Ok tt, {| user_sessions := <[user_id := f s]> (user_sessions w); calls := calls w |})
  | None => (Raise KeyError, w)
  end.

(** [geocode_location(place_name)]: one request, whose answer decides. *)
Definition geocode_location (place_name : string) : M (option (float * float)) := fun w =>
  let url := geocode_url place_name in
  let resp := net (length (calls w)) url in
  (geocode_outcome resp,
   {| user_sessions := user_sessions w; calls := calls w ++ [requests_get url resp] |}).

(** [x or y] on strings, [None] and the empty string being false. *)
Definition or_str (x : option string) (y : string) : string :=
  match x with
  | Some s => if str_nonempty s then s else y
  | None => y
  end.

Definition mode_menu : list (list InlineKeyboardButton) :=
  [ [Button "🗺️ I know where I'm going" "mode_direct"];
    [Button "✨ Recommend me a place" "mode_recommend"] ].

Definition welcome_text (username : string) : string :=
  "☀️ *Welcome to CoolRide, @" +:+ username +:+ "!*" +:+ LF +:+ LF +:+
  "I help you find cool, shaded cycling routes in Singapore." +:+ LF +:+ LF +:+
  "What would you like to do?".

Definition start_command (user : User) : M unit :=
  let user_id := pretty (effective_user_id user) in
  sessions_set user_id empty_session;;
  let username :=
    or_str (username user) (or_str (Some (first_name user)) ("user_" +:+ user_id)) in
  call (reply_text (welcome_text username) (Some mode_menu) (Some "Markdown")).

Definition direct_prompt : string :=
  "🗺️ Tell me where you want to cycle!" +:+ LF +:+ LF +:+
  "Example: " +:+ DQUOTE +:+ "From Marina Bay to East Coast Park" +:+ DQUOTE.

Definition mood_menu : list (list InlineKeyboardButton) :=
  [ [Button "🌿 Nature" "mood_nature"; Button "🍜 Food" "mood_food"];
    [Button "🌇 Views" "mood_views"] ].

Definition distance_menu : list (list InlineKeyboardButton) :=
  [ [Button "🚴 10-20 min" "dist_short"];
    [Button "🚴‍♂️ 20-40 min" "dist_medium"];
    [Button "🚴‍♀️ 40+ min" "dist_long"] ].

Definition how_far_text (mood : string) : string :=
  "*" +:+ title mood +:+ "* - nice!" +:+ LF +:+ LF +:+ "*How far?*".

Definition places_menu (recs : list Place) : list (list InlineKeyboardButton) :=
  imap (fun i r => [Button ("📍 " +:+ name r) ("place_" +:+ pretty i)]) recs.

Definition top_picks_text (recs : list Place) : string :=
  "🎯 *Top picks:*" +:+ LF +:+ LF +:+
  join LF (imap (fun i r =>
    "*" +:+ pretty (i + 1)%nat +:+ ". " +:+ name r +:+ "*" +:+ LF +:+
    "_" +:+ reason r +:+ "_" +:+ LF) recs).

Definition destination_text (place : string) : string :=
  "🎯 *Destination: " +:+ place +:+ "*" +:+ LF +:+ LF +:+ "Where are you starting from?".

Definition handle_callback (user : User) (data : string) : M unit :=
  call answer;;
  let user_id := pretty (effective_user_id user) in
  known ← sessions_has user_id;
  (if known : bool then mret tt else sessions_set user_id empty_session);;
  if decide (data = "mode_direct") then
    sessions_set user_id
      {| mode := Some "direct"; mood := None; recommendations := None;
         destination := None; awaiting_start := None |};;
    call (edit_message_text direct_prompt None None)
  else if decide (data = "mode_recommend") then
    call (edit_message_text "✨ *What are you in the mood for?*"
            (Some mood_menu) (Some "Markdown"))
  else if startswith "mood_" data then
    let mood := replace "mood_" "" data in
    session_setitem user_id (set_mood mood);;
    call (edit_message_text (how_far_text mood) (Some distance_menu) (Some "Markdown"))
  else if startswith "dist_" data then
    session ← sessions_get user_id;
    let mood := default "nature" (mood session) in
    let recs := default (default [] (FALLBACK_PLACES !! "nature")) (FALLBACK_PLACES !! mood) in
    session_setitem user_id (set_recommendations recs);;
    call (edit_message_text (top_picks_text recs) (Some (places_menu recs)) (Some "Markdown"))
  else if startswith "place_" data then
    idx ← lift (or_raise ValueError (py_int (replace "place_" "" data)));
    session ← sessions_get user_id;
    let recs := default [] (recommendations session) in
    if idx <? Z.of_nat (length recs) then
      r ← lift (list_getitem recs idx);
      session_setitem user_id (set_destination (name r));;
      session_setitem user_id (set_awaiting_start true);;
      r ← lift (list_getitem recs idx);
      call (edit_message_text (destination_text (name r)) None (Some "Markdown"))
    else mret tt
  else mret tt.

(** The link to the route app, as both branches of [handle_message] build
    it. *)
Definition route_url (start_coords end_coords : float * float) (user_id : string) : string :=
  APP_URL +:+ "?start=" +:+ str_float start_coords.1 +:+ "," +:+ str_float start_coords.2 +:+
  "&end=" +:+ str_float end_coords.1 +:+ "," +:+ str_float end_coords.2 +:+
  "&tg=" +:+ user_id.

Definition route_ready_text (origin dest url : string) : string :=
  "🗺️ *Route ready!*" +:+ LF +:+ LF +:+ "📍 " +:+ origin +:+ " → " +:+ dest +:+
  LF +:+ LF +:+ "👉 [Open map](" +:+ url +:+ ")".

Definition is_greeting (text : string) : bool :=
  bool_decide (strip (lower text) ∈ ["hi"; "hello"; "hey"; "start"]).

(** The block under [# Simple route detection]; the result tells whether
    it ended in [return]. *)
Definition route_detection (user_id text : string) : M bool :=
  if contains "from" (lower text) && contains "to" (lower text) then
    let parts := split "to" (lower text) in
    let start := strip (replace "from" "" (default "" (parts !! 0%nat))) in
    let end_ := if (1 <? length parts)%nat then strip (default "" (parts !! 1%nat)) else "" in
    if str_nonempty start && str_nonempty end_ then
      call (reply_text "📍 Finding locations..." None None);;
      start_coords ← geocode_location start;
      end_coords ← geocode_location end_;
      match start_coords, end_coords with
      | Some s, Some e =>
          let url := route_url s e user_id in
          call (reply_text (route_ready_text start end_ url) None (Some "Markdown"));;
          mret true
      | _, _ => mret false
      end
    else mret false
  else mret false.

Definition handle_message (user : User) (text : string) : M unit :=
  let user_id := pretty (effective_user_id user) in
  session ← sessions_get user_id;
  if is_greeting text then start_command user
  else if bool_decide (awaiting_start session = Some true) then
    let dest := default "" (destination session) in
    call (reply_text "📍 Finding locations..." None None);;
    start_coords ← geocode_location text;
    end_coords ← geocode_location dest;
    match start_coords, end_coords with
    | Some s, Some e =>
        let url := route_url s e user_id in
        call (reply_text (route_ready_text text dest url) None (Some "Markdown"));;
        sessions_set user_id empty_session
    | _, _ =>
        call (reply_text "😕 Couldn't find location. Try again." None None)
    end
  else
    returned ← route_detection user_id text;
    if returned : bool then mret tt
    else call (reply_text "Try /start to plan a route!" None None).

(** The session a handler finds for a user: [user_sessions.get(user_id, {})]. *)
Definition session_of (w : World) (user_id : string) : Session :=
  default empty_session (user_sessions w !! user_id).

(** The calls a handler added when it took the world from [w] to [w']. *)
Definition new_calls (w w' : World) : list Call :=
  drop (length (calls w)) (calls w').

(** What [geocode_location] returned for a geocoding request; [None] for a
    call that is no request. *)
Definition geocoded (c : Call) : option (option (float * float)) :=
  match c with
  | requests_get _ resp => Some (geocode_result resp)
  | _ => None
  end.

(** The results of the geocoding requests among [cs], in order. *)
Definition geocodings (cs : list Call) : list (option (float * float)) :=
  omap geocoded cs.

(** The coordinates of the first match in a response, as the
    specification describes the geocoder: present when the response is a
    JSON list whose first entry is an object with [lat] and [lon] that
    [float] accepts, absent otherwise. *)
Definition first_match (resp : Response) : option (float * float) :=
  match resp with
  | http_body (Some (PList (PDict d :: _))) =>
      match dict_lookup "lat" d, dict_lookup "lon" d with
      | Some lat, Some lon =>
          match py_float lat, py_float lon with
          | Ok a, Ok b => Some (a, b)
          | _, _ => None
          end
      | _, _ => None
      end
  | _ => None
  end.



(* ===================================================================== *)
(** * Part 4: lemmas on the geocoder, the monad and the handlers          *)
(* ===================================================================== *)

Lemma list_getitem_0 {A} (x : A) (l : list A) : list_getitem (x :: l) 0 = Ok x.
Proof. reflexivity. Qed.

Lemma geocode_outcome_ok resp : geocode_outcome resp = Ok (geocode_result resp).
Proof.
  unfold geocode_result, geocode_outcome.
  by destruct (geocode_try resp) as [[c|]|e].
Qed.

Lemma geocode_result_first_match resp : geocode_result resp = first_match resp.
Proof.
  unfold geocode_result, geocode_outcome, geocode_try, first_match.
  destruct resp as [|[v|]]; [done| |done].
  destruct v as [|[]|n|x|s|l|d]; simpl; try done.
  - by destruct (n =? 0).
  - by destruct (float_truth x).
  - by destruct s.
  - destruct l as [|r l]; [done|].
    unfold mbind, Result_bind. rewrite list_getitem_0.
    destruct r as [| | | | | |d]; try done. simpl.
    destruct (dict_lookup "lat" d) as [lat|]; [|done]. simpl.
    destruct (py_float lat) as [a|e]; [|by destruct (dict_lookup "lon" d)].
    destruct (dict_lookup "lon" d) as [lon|]; [|done]. simpl.
    by destruct (py_float lon).
  - by destruct d.
Qed.

Lemma geocode_url_query place_name :
  geocode_url place_name =
  "https://nominatim.openstreetmap.org/search?q=" +:+
  (place_name +:+ ", Singapore") +:+ "&format=json&limit=1".
Proof.
  unfold geocode_url. f_equal. rewrite str_app_assoc. reflexivity.
Qed.

Lemma geocode_location_run place_name w :
  geocode_location place_name w =
  (Ok (geocode_result (net (length (calls w)) (geocode_url place_name))),
   {| user_sessions := user_sessions w;
      calls := calls w ++ [requests_get (geocode_url place_name)
                             (net (length (calls w)) (geocode_url place_name))] |}).
Proof. unfold geocode_location. by rewrite geocode_outcome_ok. Qed.

(** Unfolding the monad: one handler step at a time. *)
Ltac run_unfold :=
  unfold mbind, M_bind, mret, M_ret, lift, call, sessions_get, sessions_has,
    sessions_set, session_setitem.
Ltac run_simpl := cbn [user_sessions calls default from_option id].

(** The start of [handle_callback]: the callback is answered and a user
    without a session gets the empty one. *)
Definition known_sessions (w : World) (user_id : string) : gmap string Session :=
  match user_sessions w !! user_id with
  | Some _ => user_sessions w
  | None => <[user_id := empty_session]> (user_sessions w)
  end.

Lemma known_sessions_lookup w user_id :
  known_sessions w user_id !! user_id = Some (session_of w user_id).
Proof.
  unfold known_sessions, session_of.
  destruct (user_sessions w !! user_id) eqn:E; simpl; [done|].
  by rewrite lookup_insert_eq.
Qed.

Lemma known_sessions_insert w user_id s :
  <[user_id := s]> (known_sessions w user_id) = <[user_id := s]> (user_sessions w).
Proof.
  unfold known_sessions.
  destruct (user_sessions w !! user_id); [done|]. by rewrite insert_insert_eq.
Qed.

Lemma prefix_dist d : "dist_" +:+ d = String "d" (String "i" (String "s" (String "t" (String "_" d)))).
Proof. reflexivity. Qed.

Lemma prefix_mood d : "mood_" +:+ d = String "m" (String "o" (String "o" (String "d" (String "_" d)))).
Proof. reflexivity. Qed.

Lemma prefix_place d : "place_" +:+ d = String "p" (String "l" (String "a" (String "c" (String "e" (String "_" d))))).
Proof. reflexivity. Qed.

Lemma guard_run w user_id cs :
  (if bool_decide (is_Some (user_sessions w !! user_id))
   then (fun w0 : World => (Ok (), w0))
   else (fun w0 : World =>
           (Ok (), {| user_sessions := <[user_id := empty_session]> (user_sessions w0);
                      calls := calls w0 |})))
    {| user_sessions := user_sessions w; calls := cs |} =
  (Ok (), {| user_sessions := known_sessions w user_id; calls := cs |}).
Proof. unfold known_sessions. by destruct (user_sessions w !! user_id). Qed.

Lemma FALLBACK_PLACES_nature : FALLBACK_PLACES !! "nature" = Some nature_places.
Proof. apply lookup_insert_eq. Qed.

Lemma FALLBACK_PLACES_food : FALLBACK_PLACES !! "food" = Some food_places.
Proof. unfold FALLBACK_PLACES. rewrite lookup_insert_ne by done. apply lookup_insert_eq. Qed.

Lemma FALLBACK_PLACES_views : FALLBACK_PLACES !! "views" = Some views_places.
Proof. unfold FALLBACK_PLACES. rewrite !lookup_insert_ne by done. apply lookup_insert_eq. Qed.

Lemma FALLBACK_PLACES_other m :
  m <> "nature" -> m <> "food" -> m <> "views" -> FALLBACK_PLACES !! m = None.
Proof.
  intros. unfold FALLBACK_PLACES. rewrite !lookup_insert_ne by done. apply lookup_empty.
Qed.

(** The keys of [FALLBACK_PLACES] are the three moods, three places each. *)
Lemma FALLBACK_PLACES_Some m l :
  FALLBACK_PLACES !! m = Some l ->
  (m = "nature" /\ l = nature_places) \/ (m = "food" /\ l = food_places) \/
  (m = "views" /\ l = views_places).
Proof.
  intros Hm.
  destruct (decide (m = "nature")) as [->|?].
  { rewrite FALLBACK_PLACES_nature in Hm. left. split; congruence. }
  destruct (decide (m = "food")) as [->|?].
  { rewrite FALLBACK_PLACES_food in Hm. right; left. split; congruence. }
  destruct (decide (m = "views")) as [->|?].
  { rewrite FALLBACK_PLACES_views in Hm. right; right. split; congruence. }
  by rewrite FALLBACK_PLACES_other in Hm.
Qed.

(** A distance selection: the places of the recorded mood are stored and
    shown, whatever follows [dist_] in the callback key. *)
Lemma handle_callback_dist user d w :
  let user_id := pretty (effective_user_id user) in
  let recs := default nature_places
                (FALLBACK_PLACES !! default "nature" (mood (session_of w user_id))) in
  handle_callback user ("dist_" +:+ d) w =
  (Ok tt,
   {| user_sessions :=
        <[user_id := set_recommendations recs (session_of w user_id)]> (user_sessions w);
      calls := calls w ++
        [answer;
         edit_message_text (top_picks_text recs) (Some (places_menu recs)) (Some "Markdown")] |}).
Proof.
  intros user_id recs. unfold handle_callback. rewrite prefix_dist.
  rewrite !decide_False by discriminate.
  change (startswith "mood_" _) with false.
  change (startswith "dist_" _) with true. cbv iota.
  run_unfold. run_simpl. fold user_id.
  rewrite guard_run. run_simpl.
  rewrite known_sessions_lookup. run_simpl.
  rewrite known_sessions_insert, <- app_assoc, FALLBACK_PLACES_nature.
  reflexivity.
Qed.

(** A mood selection: every [mood_] is cut out of the callback key, the
    rest is recorded as the mood and the distance menu is shown. *)
Lemma handle_callback_mood user d w :
  let user_id := pretty (effective_user_id user) in
  let m := replace "mood_" "" ("mood_" +:+ d) in
  handle_callback user ("mood_" +:+ d) w =
  (Ok tt,
   {| user_sessions := <[user_id := set_mood m (session_of w user_id)]> (user_sessions w);
      calls := calls w ++
        [answer;
         edit_message_text (how_far_text m) (Some distance_menu) (Some "Markdown")] |}).
Proof.
  intros user_id m. unfold handle_callback. fold m. rewrite prefix_mood.
  rewrite !decide_False by discriminate.
  change (startswith "mood_" _) with true. cbv iota.
  run_unfold. run_simpl. fold user_id.
  rewrite guard_run. run_simpl.
  rewrite known_sessions_lookup. run_simpl.
  rewrite known_sessions_insert, <- app_assoc.
  reflexivity.
Qed.

(** A place selection, up to the test of the index. *)
Lemma handle_callback_place user d w :
  let user_id := pretty (effective_user_id user) in
  let recs := default [] (recommendations (session_of w user_id)) in
  let w1 := {| user_sessions := known_sessions w user_id; calls := calls w ++ [answer] |} in
  handle_callback user ("place_" +:+ d) w =
  match py_int (replace "place_" "" ("place_" +:+ d)) with
  | None => (Raise ValueError, w1)
  | Some idx =>
      if idx <? Z.of_nat (length recs) then
        match list_getitem recs idx with
        | Ok r =>
            (Ok tt,
             {| user_sessions :=
                  <[user_id := set_awaiting_start true
                                 (set_destination (name r) (session_of w user_id))]>
                    (user_sessions w);
                calls := calls w ++
                  [answer;
                   edit_message_text (destination_text (name r)) None (Some "Markdown")] |})
        | Raise e => (Raise e, w1)
        end
      else (Ok tt, w1)
  end.
Proof.
  intros user_id recs w1. unfold handle_callback.
  set (arg := replace "place_" "" ("place_" +:+ d)).
  rewrite prefix_place.
  rewrite !decide_False by discriminate.
  change (startswith "mood_" _) with false.
  change (startswith "dist_" _) with false.
  change (startswith "place_" _) with true. cbv iota.
  run_unfold. run_simpl. fold user_id.
  rewrite guard_run. run_simpl.
  destruct (py_int arg) as [idx|]; [|done]. cbn [or_raise].
  rewrite known_sessions_lookup. run_simpl. fold recs.
  destruct (idx <? Z.of_nat (length recs)); [|done].
  destruct (list_getitem recs idx) as [r|e]; [|done].
  run_simpl. rewrite known_sessions_lookup. run_simpl.
  rewrite lookup_insert_eq. run_simpl.
  rewrite insert_insert_eq, known_sessions_insert, <- app_assoc.
  reflexivity.
Qed.

Lemma start_command_run user w :
  let user_id := pretty (effective_user_id user) in
  let shown := or_str (username user)
                 (or_str (Some (first_name user)) ("user_" +:+ user_id)) in
  start_command user w =
  (Ok tt,
   {| user_sessions := <[user_id := empty_session]> (user_sessions w);
      calls := calls w ++
        [reply_text (welcome_text shown) (Some mode_menu) (Some "Markdown")] |}).
Proof. reflexivity. Qed.

Lemma handle_message_greeting user text w :
  is_greeting text = true -> handle_message user text w = start_command user w.
Proof.
  intros Hg. unfold handle_message. rewrite Hg. reflexivity.
Qed.

(** A message that is no greeting, for a user who is awaiting a start
    location: two geocoding requests, then the link or the retry prompt. *)
Lemma handle_message_awaiting user text w :
  let user_id := pretty (effective_user_id user) in
  let session := session_of w user_id in
  let dest := default "" (destination session) in
  let t := length (calls w) in
  let r1 := net (t + 1)%nat (geocode_url text) in
  let r2 := net (t + 2)%nat (geocode_url dest) in
  let requests :=
    [reply_text "📍 Finding locations..." None None;
     requests_get (geocode_url text) r1; requests_get (geocode_url dest) r2] in
  is_greeting text = false ->
  awaiting_start session = Some true ->
  handle_message user text w =
  match geocode_result r1, geocode_result r2 with
  | Some s, Some e =>
      (Ok tt,
       {| user_sessions := <[user_id := empty_session]> (user_sessions w);
          calls := calls w ++ requests ++
            [reply_text (route_ready_text text dest (route_url s e user_id))
               None (Some "Markdown")] |})
  | _, _ =>
      (Ok tt,
       {| user_sessions := user_sessions w;
          calls := calls w ++ requests ++
            [reply_text "😕 Couldn't find location. Try again." None None] |})
  end.
Proof.
  intros user_id session dest t r1 r2 requests Hg Ha.
  unfold handle_message. rewrite Hg.
  run_unfold. run_simpl. fold user_id. fold (session_of w user_id). fold session.
  rewrite Ha, bool_decide_eq_true_2 by done. fold dest.
  rewrite !geocode_location_run. run_simpl.
  rewrite !length_app. cbn [length]. fold t.
  replace (t + 1 + 1)%nat with (t + 2)%nat by lia.
  fold r1 r2.
  destruct (geocode_result r1) as [s|], (geocode_result r2) as [e|];
    run_simpl; rewrite <- ?app_assoc; reflexivity.
Qed.

(** A message that is no greeting, for a user who is not awaiting a start
    location: the route detection, and the hint unless it sent a link. *)
Lemma handle_message_idle user text w :
  let user_id := pretty (effective_user_id user) in
  let parts := split "to" (lower text) in
  let start := strip (replace "from" "" (default "" (parts !! 0%nat))) in
  let end_ := if (1 <? length parts)%nat then strip (default "" (parts !! 1%nat)) else "" in
  let t := length (calls w) in
  let r1 := net (t + 1)%nat (geocode_url start) in
  let r2 := net (t + 2)%nat (geocode_url end_) in
  let requests :=
    [reply_text "📍 Finding locations..." None None;
     requests_get (geocode_url start) r1; requests_get (geocode_url end_) r2] in
  let hint := reply_text "Try /start to plan a route!" None None in
  is_greeting text = false ->
  awaiting_start (session_of w user_id) <> Some true ->
  handle_message user text w =
  if contains "from" (lower text) && contains "to" (lower text) &&
     (str_nonempty start && str_nonempty end_)
  then
    (Ok tt,
     {| user_sessions := user_sessions w;
        calls := calls w ++ requests ++
          [match geocode_result r1, geocode_result r2 with
           | Some s, Some e =>
               reply_text (route_ready_text start end_ (route_url s e user_id))
                 None (Some "Markdown")
           | _, _ => hint
           end] |})
  else
    (Ok tt, {| user_sessions := user_sessions w; calls := calls w ++ [hint] |}).
Proof.
  intros user_id parts start end_ t r1 r2 requests hint Hg Ha.
  unfold handle_message, route_detection. rewrite Hg.
  run_unfold. run_simpl. fold user_id. fold (session_of w user_id).
  rewrite bool_decide_eq_false_2 by done.
  fold parts. fold start. fold end_.
  destruct (contains "from" (lower text) && contains "to" (lower text));
    [|by destruct w].
  destruct (str_nonempty start && str_nonempty end_); [|by destruct w].
  cbn [andb]. rewrite !geocode_location_run. run_simpl.
  rewrite !length_app. cbn [length]. fold t.
  replace (t + 1 + 1)%nat with (t + 2)%nat by lia.
  fold r1 r2.
  destruct (geocode_result r1) as [s|], (geocode_result r2) as [e|];
    run_simpl; rewrite <- ?app_assoc; reflexivity.
Qed.

Lemma new_calls_app w ss cs :
  new_calls w {| user_sessions := ss; calls := calls w ++ cs |} = cs.
Proof. unfold new_calls. cbn [calls]. apply drop_app_length. Qed.

Lemma session_of_insert_eq ss user_id s cs :
  session_of {| user_sessions := <[user_id := s]> ss; calls := cs |} user_id = s.
Proof. unfold session_of. cbn [user_sessions]. by rewrite lookup_insert_eq. Qed.

Lemma handle_callback_mood_stored user d w :
  let user_id := pretty (effective_user_id user) in
  let m := replace "mood_" "" ("mood_" +:+ d) in
  exists w1,
    handle_callback user ("mood_" +:+ d) w = (Ok tt, w1) /\
    mood (session_of w1 user_id) = Some m /\
    new_calls w w1 =
      [answer; edit_message_text (how_far_text m) (Some distance_menu) (Some "Markdown")].
Proof.
  intros user_id m. eexists. split; [apply handle_callback_mood|].
  split; [by rewrite session_of_insert_eq|apply new_calls_app].
Qed.

Lemma handle_callback_dist_stored user d w :
  let user_id := pretty (effective_user_id user) in
  let recs := default nature_places
                (FALLBACK_PLACES !! default "nature" (mood (session_of w user_id))) in
  exists w2,
    handle_callback user ("dist_" +:+ d) w = (Ok tt, w2) /\
    recommendations (session_of w2 user_id) = Some recs /\
    new_calls w w2 =
      [answer;
       edit_message_text (top_picks_text recs) (Some (places_menu recs)) (Some "Markdown")].
Proof.
  intros user_id recs. eexists. split; [apply handle_callback_dist|].
  split; [by rewrite session_of_insert_eq|apply new_calls_app].
Qed.


(* ===================================================================== *)
(** * Part 5: the properties of the specification                         *)
(* ===================================================================== *)

(** C8. Whatever the geocoding service does with the request (a failed
    request, a body that is not JSON, an empty list, a list of matches or
    any other JSON value), [geocode_location] raises nothing: it makes one
    request, whose query is the place name followed by [", Singapore"],
    and returns the coordinates of the first match when there is one and
    nothing otherwise. *)
Theorem C8_geocode_location_never_raises (place_name : string) (w : World) :
  let url := "https://nominatim.openstreetmap.org/search?q=" +:+
             (place_name +:+ ", Singapore") +:+ "&format=json&limit=1" in
  let resp := net (length (calls w)) url in
  geocode_location place_name w =
    (Ok (first_match resp),
     {| user_sessions := user_sessions w;
        calls := calls w ++ [requests_get url resp] |}) /\
  first_match request_failed = None /\
  first_match (http_body None) = None /\
  first_match (http_body (Some (PList []))) = None /\
  (forall lat lon a b rest others,
     float_of_str lat = Some a -> float_of_str lon = Some b ->
     first_match (http_body (Some (PList
       (PDict (("lat", PStr lat) :: ("lon", PStr lon) :: rest) :: others)))) = Some (a, b)).
Proof.
  intros url resp. split; [|repeat split].
  - rewrite geocode_location_run, geocode_result_first_match.
    rewrite geocode_url_query. reflexivity.
  - intros lat lon a b rest others Ha Hb. simpl. by rewrite Ha, Hb.
Qed.

(** C5. A text message that is one of the greetings [hi], [hello], [hey],
    [start] once lower-cased and stripped resets the sender's session to the
    empty one, whatever it was, and shows the mode menu; the other sessions
    are untouched. *)
Theorem C5_greeting_resets_session (user : User) (text : string) (w : World) :
  let user_id := pretty (effective_user_id user) in
  let shown_name :=
    or_str (username user) (or_str (Some (first_name user)) ("user_" +:+ user_id)) in
  strip (lower text) ∈ ["hi"; "hello"; "hey"; "start"] ->
  handle_message user text w =
  (Ok tt,
   {| user_sessions := <[user_id := empty_session]> (user_sessions w);
      calls := calls w ++
        [reply_text (welcome_text shown_name) (Some mode_menu) (Some "Markdown")] |}).
Proof.
  intros user_id shown_name Hg.
  rewrite handle_message_greeting by (by apply bool_decide_eq_true_2).
  apply start_command_run.
Qed.

(** C7. Two distance selections made in the same state end in the same
    state with the same calls: what follows [dist_] in the callback key has
    no effect on the places stored and shown. *)
Theorem C7_distance_has_no_effect (user : User) (d1 d2 : string) (w : World) :
  handle_callback user ("dist_" +:+ d1) w = handle_callback user ("dist_" +:+ d2) w.
Proof. by rewrite !handle_callback_dist. Qed.

(** C6. After the selection of a mood [m] of [FALLBACK_PLACES] the distance
    menu is shown, and the distance selection that follows stores (and
    shows) the three places of [m]; a distance selection made with no mood
    in the session stores the places of [nature]. *)
Theorem C6_mood_then_distance (user : User) (m d : string) (l : list Place) (w : World) :
  let user_id := pretty (effective_user_id user) in
  FALLBACK_PLACES !! m = Some l ->
  (exists w1 w2,
     handle_callback user ("mood_" +:+ m) w = (Ok tt, w1) /\
     new_calls w w1 =
       [answer;
        edit_message_text (how_far_text m) (Some distance_menu) (Some "Markdown")] /\
     handle_callback user ("dist_" +:+ d) w1 = (Ok tt, w2) /\
     recommendations (session_of w2 user_id) = Some l /\
     length l = 3%nat /\
     new_calls w1 w2 =
       [answer;
        edit_message_text (top_picks_text l) (Some (places_menu l)) (Some "Markdown")]) /\
  (mood (session_of w user_id) = None ->
   exists w2,
     handle_callback user ("dist_" +:+ d) w = (Ok tt, w2) /\
     recommendations (session_of w2 user_id) = Some nature_places).
Proof.
  intros user_id Hm. split.
  - assert (Hrep : replace "mood_" "" ("mood_" +:+ m) = m).
    { destruct (FALLBACK_PLACES_Some m l Hm) as [[-> _]|[[-> _]|[-> _]]]; reflexivity. }
    assert (Hlen : length l = 3%nat).
    { destruct (FALLBACK_PLACES_Some m l Hm) as [[_ ->]|[[_ ->]|[_ ->]]]; reflexivity. }
    destruct (handle_callback_mood_stored user m w) as (w1 & Hrun1 & Hmood & Hsent1).
    rewrite Hrep in Hmood, Hsent1. fold user_id in Hmood.
    destruct (handle_callback_dist_stored user d w1) as (w2 & Hrun2 & Hrecs & Hsent2).
    fold user_id in Hrecs, Hsent2. rewrite Hmood in Hrecs, Hsent2.
    cbn [default from_option id] in Hrecs, Hsent2. rewrite Hm in Hrecs, Hsent2.
    by exists w1, w2.
  - intros Hnone.
    destruct (handle_callback_dist_stored user d w) as (w2 & Hrun2 & Hrecs & _).
    fold user_id in Hrecs. rewrite Hnone in Hrecs.
    cbn [default from_option id] in Hrecs. rewrite FALLBACK_PLACES_nature in Hrecs.
    by exists w2.
Qed.

(** C9 (as the code has it). A callback key that starts with [mood_] is
    recorded as the mood with every [mood_] cut out of it, not checked
    against the three moods: this is what follows the prefix whenever that
    contains no further [mood_]. A distance selection made with a recorded
    mood other than [nature], [food] and [views] stores the places of
    [nature]. *)
Theorem C9_mood_is_not_validated (user : User) (d d' : string) (w : World) :
  let user_id := pretty (effective_user_id user) in
  let m := replace "mood_" "" ("mood_" +:+ d) in
  (exists w1,
     handle_callback user ("mood_" +:+ d) w = (Ok tt, w1) /\
     mood (session_of w1 user_id) = Some m) /\
  m = replace "mood_" "" d /\
  (contains "mood_" d = false -> m = d) /\
  (forall stored,
     mood (session_of w user_id) = Some stored ->
     stored ∉ ["nature"; "food"; "views"] ->
     exists w2,
       handle_callback user ("dist_" +:+ d') w = (Ok tt, w2) /\
       recommendations (session_of w2 user_id) = Some nature_places).
Proof.
  intros user_id m.
  assert (Hm : m = replace "mood_" "" d).
  { unfold m. by rewrite replace_prefix. }
  split; [|split; [done|split]].
  - destruct (handle_callback_mood_stored user d w) as (w1 & Hrun & Hmood & _).
    by exists w1.
  - intros Hd. rewrite Hm. by apply replace_absent.
  - intros stored Hs Hout.
    destruct (handle_callback_dist_stored user d' w) as (w2 & Hrun & Hrecs & _).
    fold user_id in Hrecs. rewrite Hs in Hrecs.
    cbn [default from_option id] in Hrecs.
    rewrite FALLBACK_PLACES_other in Hrecs; [by exists w2|..];
      intros ->; apply Hout; set_solver.
Qed.

Lemma geocodings_requests text1 r1 text2 r2 c0 c3 :
  geocoded c0 = None -> geocoded c3 = None ->
  geocodings ([c0; requests_get text1 r1; requests_get text2 r2] ++ [c3]) =
  [geocode_result r1; geocode_result r2].
Proof.
  intros H0 H3. unfold geocodings. cbn [app omap list_omap].
  rewrite H0, H3. reflexivity.
Qed.


(** C4. For a user who is awaiting a start location: when a geocoding
    request made while handling the message, for the typed origin or for
    the stored destination, fails, then the handler sends the retry prompt
    and no link, and leaves every session as it was, the sender's
    destination and awaiting-start flag included. *)
Theorem C4_geocoding_failure_keeps_session (user : User) (text : string) (w : World) :
  let user_id := pretty (effective_user_id user) in
  let dest := default "" (destination (session_of w user_id)) in
  let w' := (handle_message user text w).2 in
  awaiting_start (session_of w user_id) = Some true ->
  (exists resp, requests_get (geocode_url text) resp ∈ new_calls w w' /\
                geocode_result resp = None) \/
  (exists resp, requests_get (geocode_url dest) resp ∈ new_calls w w' /\
                geocode_result resp = None) ->
  exists r1 r2,
    handle_message user text w =
    (Ok tt,
     {| user_sessions := user_sessions w;
        calls := calls w ++
          [reply_text "📍 Finding locations..." None None;
           requests_get (geocode_url text) r1;
           requests_get (geocode_url dest) r2;
           reply_text "😕 Couldn't find location. Try again." None None] |}) /\
    session_of w' user_id = session_of w user_id.
Proof.
  intros user_id dest w' Ha Hfail. subst w'.
  destruct (is_greeting text) eqn:Hg.
  { exfalso.
    rewrite handle_message_greeting, start_command_run in Hfail by done.
    cbn [snd] in Hfail. rewrite new_calls_app in Hfail.
    destruct Hfail as [(resp & Hin & _)|(resp & Hin & _)];
      apply list_elem_of_singleton in Hin; discriminate. }
  pose proof (handle_message_awaiting user text w) as Hrun. cbv zeta in Hrun.
  specialize (Hrun Hg Ha). fold user_id in Hrun. fold dest in Hrun.
  rewrite Hrun in Hfail |- *. clear Hrun.
  set (r1 := net (length (calls w) + 1)%nat (geocode_url text)) in *.
  set (r2 := net (length (calls w) + 2)%nat (geocode_url dest)) in *.
  destruct (geocode_result r1) as [s|] eqn:E1;
    [destruct (geocode_result r2) as [e|] eqn:E2|].
  - exfalso. cbn [snd] in Hfail. rewrite new_calls_app in Hfail.
    cbn [app] in Hfail.
    destruct Hfail as [(resp & Hin & Hnone)|(resp & Hin & Hnone)];
      repeat (apply elem_of_cons in Hin as [Hin|Hin]; [try discriminate|]);
      try (by apply elem_of_nil in Hin);
      simplify_eq; congruence.
  - exists r1, r2. split; [done|]. reflexivity.
  - exists r1, r2. split; [done|]. reflexivity.
Qed.

Lemma contains_app_prefix p s : contains p (p +:+ s) = true.
Proof.
  assert (Hc : forall t, contains p t = startswith p t ||
            match t with EmptyString => false | String _ t' => contains p t' end)
    by (by intros []).
  rewrite Hc, startswith_app. reflexivity.
Qed.

(** A text whose lower-cased form starts with [from] is no greeting. *)
Lemma is_greeting_from text rest : lower text = "from" +:+ rest -> is_greeting text = false.
Proof.
  intros Hl. unfold is_greeting. rewrite Hl.
  apply bool_decide_eq_false_2.
  change ("from" +:+ rest) with (String "f" ("rom" +:+ rest)).
  destruct (strip_head "f" ("rom" +:+ rest)) as [s' ->]; [done..|].
  intros Hin. repeat (apply elem_of_cons in Hin as [Hin|Hin]; [discriminate|]).
  by apply elem_of_nil in Hin.
Qed.

(** C10 (as the code has it). A message [from X to Y], the two keywords in
    any case: its lower-cased text is [from], a segment [x], [to], a segment
    [y]. When the lower-cased text holds [to] once, [x] and [y] are not
    blank and [x] is free of the word [from], and the sender is not awaiting
    a start location, the geocoder is asked for the stripped [x] and then
    for the stripped [y], that is for the two names lower-cased and
    stripped, and the route message sent when both are found names these
    two. *)
Theorem C10_from_to_parsing (user : User) (text x y : string) (w : World) :
  let user_id := pretty (effective_user_id user) in
  let origin := strip x in
  let dest := strip y in
  lower text = "from" +:+ x +:+ "to" +:+ y ->
  occurrences "to" (lower text) = 1%nat ->
  contains "from" x = false ->
  origin <> "" -> dest <> "" ->
  awaiting_start (session_of w user_id) <> Some true ->
  exists r1 r2,
    handle_message user text w =
    (Ok tt,
     {| user_sessions := user_sessions w;
        calls := calls w ++
          [reply_text "📍 Finding locations..." None None;
           requests_get (geocode_url origin) r1;
           requests_get (geocode_url dest) r2;
           match geocode_result r1, geocode_result r2 with
           | Some s, Some e =>
               reply_text (route_ready_text origin dest (route_url s e user_id))
                 None (Some "Markdown")
           | _, _ => reply_text "Try /start to plan a route!" None None
           end] |}).
Proof.
  intros user_id origin dest Hlow Hocc Hx Hsx Hsy Ha.
  assert (Hlow' : lower text = ("from" +:+ x) +:+ "to" +:+ y).
  { rewrite Hlow. symmetry. apply str_app_assoc. }
  assert (Hg : is_greeting text = false) by exact (is_greeting_from text _ Hlow).
  assert (Hfrom : contains "from" (lower text) = true).
  { rewrite Hlow. apply contains_app_prefix. }
  assert (Hto : contains "to" (lower text) = true).
  { destruct (contains "to" (lower text)) eqn:E; [done|].
    apply contains_occurrences in E. lia. }
  assert (Hparts : split "to" (lower text) = ["from" +:+ x; y]).
  { rewrite Hlow'. apply split_once; [done|]. by rewrite <- Hlow'. }
  assert (Hstart : strip (replace "from" "" ("from" +:+ x)) = origin).
  { rewrite replace_prefix by done. rewrite str_app_nil_l.
    by rewrite replace_absent. }
  pose proof (handle_message_idle user text w) as Hrun. cbv zeta in Hrun.
  specialize (Hrun Hg Ha). rewrite Hparts, Hfrom, Hto in Hrun.
  cbn [lookup list_lookup default from_option id length Nat.ltb Nat.leb andb] in Hrun.
  rewrite Hstart in Hrun. fold dest in Hrun.
  assert (Hne : str_nonempty origin && str_nonempty dest = true).
  { apply andb_true_iff. split; by apply str_nonempty_true. }
  rewrite Hne in Hrun. fold user_id in Hrun.
  eexists _, _. exact Hrun.
Qed.

(** ** Further properties of the handlers *)

(** X1. On the menu path a link is followed by the reset: when a user who is
    awaiting a start location has both places geocoded, the route message
    is the last call and the session is the empty one afterwards. *)
Theorem awaiting_success_resets_session (user : User) (text : string) (w : World)
    (s e : float * float) :
  let user_id := pretty (effective_user_id user) in
  let dest := default "" (destination (session_of w user_id)) in
  let w' := (handle_message user text w).2 in
  awaiting_start (session_of w user_id) = Some true ->
  geocodings (new_calls w w') = [Some s; Some e] ->
  user_sessions w' = <[user_id := empty_session]> (user_sessions w) /\
  session_of w' user_id = empty_session /\
  last (calls w') =
    Some (reply_text (route_ready_text text dest (route_url s e user_id))
            None (Some "Markdown")).
Proof.
  intros user_id dest w' Ha. subst w'.
  destruct (is_greeting text) eqn:Hg.
  { rewrite handle_message_greeting, start_command_run by done.
    cbn [snd]. rewrite new_calls_app. discriminate. }
  pose proof (handle_message_awaiting user text w) as Hrun. cbv zeta in Hrun.
  specialize (Hrun Hg Ha). fold user_id in Hrun. fold dest in Hrun.
  rewrite Hrun. clear Hrun.
  set (r1 := net (length (calls w) + 1)%nat (geocode_url text)).
  set (r2 := net (length (calls w) + 2)%nat (geocode_url dest)).
  destruct (geocode_result r1) as [s1|] eqn:E1;
    destruct (geocode_result r2) as [e1|] eqn:E2;
    cbn [snd]; rewrite new_calls_app, geocodings_requests by done;
    rewrite ?E1, ?E2; intros [= <- <-] || intros [=].
  split; [done|]. split; [apply session_of_insert_eq|].
  cbn [calls]. rewrite !app_assoc. apply last_snoc.
Qed.

(** X2. A place selection whose index is not below the length of the
    recommendations is ignored: the callback is answered, nothing is sent,
    and the sender's session is as it was. *)
Theorem place_index_too_large_ignored (user : User) (d : string) (idx : Z) (w : World) :
  let user_id := pretty (effective_user_id user) in
  let recs := default [] (recommendations (session_of w user_id)) in
  py_int (replace "place_" "" ("place_" +:+ d)) = Some idx ->
  Z.of_nat (length recs) <= idx ->
  exists w',
    handle_callback user ("place_" +:+ d) w = (Ok tt, w') /\
    new_calls w w' = [answer] /\
    session_of w' user_id = session_of w user_id /\
    (forall other, other <> user_id -> user_sessions w' !! other = user_sessions w !! other).
Proof.
  intros user_id recs Hidx Hge.
  pose proof (handle_callback_place user d w) as Hrun. cbv zeta in Hrun.
  rewrite Hidx in Hrun. fold user_id in Hrun. fold recs in Hrun.
  rewrite (proj2 (Z.ltb_ge _ _)) in Hrun by done.
  eexists. split; [exact Hrun|]. split; [apply new_calls_app|]. split.
  - unfold session_of at 1. cbn [user_sessions]. by rewrite known_sessions_lookup.
  - intros other Hother. cbn [user_sessions]. unfold known_sessions.
    destruct (user_sessions w !! user_id); [done|]. by rewrite lookup_insert_ne.
Qed.

(** X3. A place selection with an index in range stores the name of that
    recommendation as the destination, sets the awaiting-start flag and
    asks for the origin. *)
Theorem place_index_in_range_selects (user : User) (d : string) (idx : Z) (r : Place)
    (w : World) :
  let user_id := pretty (effective_user_id user) in
  let recs := default [] (recommendations (session_of w user_id)) in
  py_int (replace "place_" "" ("place_" +:+ d)) = Some idx ->
  0 <= idx ->
  recs !! Z.to_nat idx = Some r ->
  exists w',
    handle_callback user ("place_" +:+ d) w = (Ok tt, w') /\
    destination (session_of w' user_id) = Some (name r) /\
    awaiting_start (session_of w' user_id) = Some true /\
    new_calls w w' =
      [answer; edit_message_text (destination_text (name r)) None (Some "Markdown")].
Proof.
  intros user_id recs Hidx Hpos Hr.
  pose proof (handle_callback_place user d w) as Hrun. cbv zeta in Hrun.
  rewrite Hidx in Hrun. fold user_id in Hrun. fold recs in Hrun.
  assert (Hlt : idx < Z.of_nat (length recs)).
  { apply lookup_lt_Some in Hr. lia. }
  rewrite (proj2 (Z.ltb_lt _ _)) in Hrun by done.
  assert (Hget : list_getitem recs idx = Ok r).
  { unfold list_getitem.
    rewrite (proj2 (Z.ltb_ge _ _)) by done.
    rewrite (proj2 (Z.leb_le _ _)), (proj2 (Z.ltb_lt _ _)) by done.
    cbn [andb]. by rewrite Hr. }
  rewrite Hget in Hrun.
  eexists. split; [exact Hrun|].
  rewrite session_of_insert_eq. split; [done|]. split; [done|].
  apply new_calls_app.
Qed.

(* ===================================================================== *)
(** * Part 5b: the remaining handlers and the bot as a whole              *)
(* ===================================================================== *)

Definition help_text : string :=
  "🆘 *CoolRide Bot Help*" +:+ LF +:+ LF +:+
  "/start - Plan a new route" +:+ LF +:+ LF +:+
  "Just chat naturally! Tell me where you want to cycle.".

Definition help_command (user : User) : M unit :=
  call (reply_text help_text None (Some "Markdown")).

(** An update as [main] routes it. Which updates are commands, callback
    queries or plain text is decided by the chat library; the table below
    is the list of handlers that [main] registers. *)
Inductive Update :=
| CommandStart (user : User)
| CommandHelp (user : User)
| CallbackQuery (user : User) (data : string)
| TextMessage (user : User) (text : string).

Definition dispatch (u : Update) : M unit :=
  match u with
  | CommandStart user => start_command user
  | CommandHelp user => help_command user
  | CallbackQuery user data => handle_callback user data
  | TextMessage user text => handle_message user text
  end.

(** The updates of a run, handled one after the other. A handler that
    raises leaves the state as it was at that point: [user_sessions] is a
    module-level dictionary, and the library goes on with the next update. *)
Fixpoint run_updates (us : list Update) (w : World) : World :=
  match us with
  | [] => w
  | u :: us' => run_updates us' (dispatch u w).2
  end.

(** The world at start-up: [user_sessions = {}] and nothing sent. *)
Definition initial_world : World := {| user_sessions := ∅; calls := [] |}.

(** The session [{"mode": "direct"}]. *)
Definition direct_session : Session :=
  {| mode := Some "direct"; mood := None; recommendations := None;
     destination := None; awaiting_start := None |}.

(** The names of the nine places of [FALLBACK_PLACES]. *)
Definition place_names : list string :=
  name <$> (nature_places ++ food_places ++ views_places).

(** What the handlers keep true of every session: the recommendations are
    one of the three fixed lists, the destination is the name of one of the
    nine places, and the awaiting-start flag is only ever [True] and comes
    with a destination. *)
Definition curated (s : Session) : Prop :=
  (forall l, recommendations s = Some l -> l ∈ [nature_places; food_places; views_places]) /\
  (forall n, destination s = Some n -> n ∈ place_names) /\
  (forall b, awaiting_start s = Some b -> b = true /\ is_Some (destination s)).

(** ** Every branch of [handle_callback] *)

Lemma startswith_elim p s : startswith p s = true -> exists d, s = p +:+ d.
Proof.
  revert s. induction p as [|a p IH]; intros s Hs.
  - by exists s.
  - destruct s as [|b s]; [done|]. simpl in Hs.
    destruct (decide (a = b)) as [->|]; [|done].
    destruct (IH s Hs) as [d ->]. by exists d.
Qed.

Lemma known_sessions_as_insert w user_id :
  known_sessions w user_id = <[user_id := session_of w user_id]> (user_sessions w).
Proof.
  unfold known_sessions, session_of.
  destruct (user_sessions w !! user_id) eqn:E; [|done].
  cbn [default from_option id]. by rewrite insert_id.
Qed.

Lemma handle_callback_mode_direct user w :
  let user_id := pretty (effective_user_id user) in
  handle_callback user "mode_direct" w =
  (Ok tt,
   {| user_sessions := <[user_id := direct_session]> (user_sessions w);
      calls := calls w ++ [answer; edit_message_text direct_prompt None None] |}).
Proof.
  intros user_id. unfold handle_callback.
  rewrite decide_True by done.
  run_unfold. run_simpl. fold user_id.
  rewrite guard_run. run_simpl.
  rewrite known_sessions_insert, <- app_assoc. reflexivity.
Qed.

Lemma handle_callback_mode_recommend user w :
  let user_id := pretty (effective_user_id user) in
  handle_callback user "mode_recommend" w =
  (Ok tt,
   {| user_sessions := known_sessions w user_id;
      calls := calls w ++
        [answer;
         edit_message_text "✨ *What are you in the mood for?*"
           (Some mood_menu) (Some "Markdown")] |}).
Proof.
  intros user_id. unfold handle_callback.
  rewrite decide_False by discriminate. rewrite decide_True by done.
  run_unfold. run_simpl. fold user_id.
  rewrite guard_run. run_simpl.
  rewrite <- app_assoc. reflexivity.
Qed.

(** A callback key that no branch recognises is answered, nothing else. *)
Lemma handle_callback_other user data w :
  let user_id := pretty (effective_user_id user) in
  data <> "mode_direct" -> data <> "mode_recommend" ->
  startswith "mood_" data = false -> startswith "dist_" data = false ->
  startswith "place_" data = false ->
  handle_callback user data w =
  (Ok tt, {| user_sessions := known_sessions w user_id; calls := calls w ++ [answer] |}).
Proof.
  intros user_id H1 H2 H3 H4 H5. unfold handle_callback.
  rewrite !decide_False by done. rewrite H3, H4, H5.
  run_unfold. run_simpl. fold user_id.
  rewrite guard_run. reflexivity.
Qed.

(** The subscript [l[i]]: the element counted from the front or from the
    end, [IndexError] outside [-len(l) .. len(l) - 1]. *)
Lemma list_getitem_cases {A} (l : list A) (i : Z) :
  let n := Z.of_nat (length l) in
  (0 <= i < n /\ exists x, l !! Z.to_nat i = Some x /\ list_getitem l i = Ok x) \/
  (- n <= i < 0 /\ exists x, l !! Z.to_nat (i + n) = Some x /\ list_getitem l i = Ok x) \/
  ((i < - n \/ n <= i) /\ list_getitem l i = Raise IndexError).
Proof.
  intros n. unfold list_getitem. fold n.
  destruct (Z.ltb_spec i 0) as [Hneg|Hpos].
  - destruct (Z.leb_spec 0 (i + n)) as [Hlo|Hlo]; cbn [andb].
    + rewrite (proj2 (Z.ltb_lt (i + n) n)) by lia.
      destruct (lookup_lt_is_Some_2 l (Z.to_nat (i + n))) as [x Hx]; [lia|].
      right; left. split; [lia|]. exists x. by rewrite Hx.
    + right; right. split; [lia|done].
  - rewrite (proj2 (Z.leb_le 0 i)) by done. cbn [andb].
    destruct (Z.ltb_spec i n) as [Hlt|Hge].
    + destruct (lookup_lt_is_Some_2 l (Z.to_nat i)) as [x Hx]; [lia|].
      left. split; [lia|]. exists x. by rewrite Hx.
    + right; right. split; [lia|done].
Qed.

(** What [handle_callback] does to the sender's session [s], by branch:
    its result, the session afterwards and the calls after [answer]. *)
Inductive callback_effect (data : string) (s : Session) :
    Result unit -> Session -> list Call -> Prop :=
| eff_direct :
    data = "mode_direct" ->
    callback_effect data s (Ok tt) direct_session
      [edit_message_text direct_prompt None None]
| eff_recommend :
    data = "mode_recommend" ->
    callback_effect data s (Ok tt) s
      [edit_message_text "✨ *What are you in the mood for?*"
         (Some mood_menu) (Some "Markdown")]
| eff_mood d :
    data = "mood_" +:+ d ->
    callback_effect data s (Ok tt) (set_mood (replace "mood_" "" data) s)
      [edit_message_text (how_far_text (replace "mood_" "" data))
         (Some distance_menu) (Some "Markdown")]
| eff_dist d recs :
    data = "dist_" +:+ d ->
    recs = default nature_places (FALLBACK_PLACES !! default "nature" (mood s)) ->
    callback_effect data s (Ok tt) (set_recommendations recs s)
      [edit_message_text (top_picks_text recs) (Some (places_menu recs)) (Some "Markdown")]
| eff_place_selected d idx r :
    data = "place_" +:+ d ->
    py_int (replace "place_" "" data) = Some idx ->
    idx < Z.of_nat (length (default [] (recommendations s))) ->
    list_getitem (default [] (recommendations s)) idx = Ok r ->
    callback_effect data s (Ok tt)
      (set_awaiting_start true (set_destination (name r) s))
      [edit_message_text (destination_text (name r)) None (Some "Markdown")]
| eff_place_ignored d idx :
    data = "place_" +:+ d ->
    py_int (replace "place_" "" data) = Some idx ->
    Z.of_nat (length (default [] (recommendations s))) <= idx ->
    callback_effect data s (Ok tt) s []
| eff_place_not_int d :
    data = "place_" +:+ d ->
    py_int (replace "place_" "" data) = None ->
    callback_effect data s (Raise ValueError) s []
| eff_place_index_error d idx :
    data = "place_" +:+ d ->
    py_int (replace "place_" "" data) = Some idx ->
    idx < - Z.of_nat (length (default [] (recommendations s))) ->
    callback_effect data s (Raise IndexError) s []
| eff_other :
    data <> "mode_direct" -> data <> "mode_recommend" ->
    startswith "mood_" data = false -> startswith "dist_" data = false ->
    startswith "place_" data = false ->
    callback_effect data s (Ok tt) s [].

(** [handle_callback] answers, replaces the sender's session and adds the
    calls of the branch taken; nothing else. *)
Lemma handle_callback_summary user data w :
  let user_id := pretty (effective_user_id user) in
  exists r s' cs,
    handle_callback user data w =
      (r, {| user_sessions := <[user_id := s']> (user_sessions w);
             calls := calls w ++ answer :: cs |}) /\
    callback_effect data (session_of w user_id) r s' cs.
Proof.
  intros user_id.
  destruct (decide (data = "mode_direct")) as [->|H1].
  { eexists _, _, _. split; [apply handle_callback_mode_direct|by constructor]. }
  destruct (decide (data = "mode_recommend")) as [->|H2].
  { eexists _, _, _. split; [|by apply eff_recommend].
    rewrite handle_callback_mode_recommend. fold user_id.
    by rewrite known_sessions_as_insert. }
  destruct (startswith "mood_" data) eqn:H3.
  { destruct (startswith_elim _ _ H3) as [d ->].
    eexists _, _, _. split; [apply handle_callback_mood|by eapply eff_mood]. }
  destruct (startswith "dist_" data) eqn:H4.
  { destruct (startswith_elim _ _ H4) as [d ->].
    eexists _, _, _. split; [apply handle_callback_dist|by eapply eff_dist]. }
  destruct (startswith "place_" data) eqn:H5.
  { destruct (startswith_elim _ _ H5) as [d ->].
    pose proof (handle_callback_place user d w) as Hrun. cbv zeta in Hrun.
    fold user_id in Hrun. rewrite Hrun. clear Hrun.
    set (recs := default [] (recommendations (session_of w user_id))).
    destruct (py_int (replace "place_" "" ("place_" +:+ d))) as [idx|] eqn:Hint.
    - destruct (Z.ltb_spec idx (Z.of_nat (length recs))) as [Hlt|Hge].
      + destruct (list_getitem recs idx) as [r|e] eqn:Hget.
        * eexists _, _, _. split; [reflexivity|by eapply eff_place_selected].
        * destruct (list_getitem_cases recs idx) as
            [(_ & x & _ & Hx)|[(_ & x & _ & Hx)|(Hout & Hx)]]; try congruence.
          assert (e = IndexError) as -> by congruence.
          eexists _, _, _. split; [by rewrite known_sessions_as_insert|].
          eapply eff_place_index_error; [done..|]. fold recs. lia.
      + eexists _, _, _. split; [by rewrite known_sessions_as_insert|].
        by eapply eff_place_ignored.
    - eexists _, _, _. split; [by rewrite known_sessions_as_insert|].
      by eapply eff_place_not_int. }
  eexists _, _, _. split; [|by apply eff_other].
  rewrite handle_callback_other by done. fold user_id.
  by rewrite known_sessions_as_insert.
Qed.

(** [handle_message] returns normally, ends with a message to the user and
    either leaves [user_sessions] alone or resets the sender's session. *)
Lemma handle_message_summary user text w :
  let user_id := pretty (effective_user_id user) in
  exists ss' cs msg kb pm,
    handle_message user text w =
      (Ok tt, {| user_sessions := ss'; calls := calls w ++ cs ++ [reply_text msg kb pm] |}) /\
    (ss' = user_sessions w \/ ss' = <[user_id := empty_session]> (user_sessions w)).
Proof.
  intros user_id.
  destruct (is_greeting text) eqn:Hg.
  { rewrite handle_message_greeting, start_command_run by done.
    eexists _, [], _, _, _. split; [reflexivity|by right]. }
  destruct (decide (awaiting_start (session_of w user_id) = Some true)) as [Ha|Ha].
  - pose proof (handle_message_awaiting user text w) as Hrun. cbv zeta in Hrun.
    rewrite (Hrun Hg Ha). clear Hrun.
    match goal with
    | |- context [match geocode_result ?r1 with Some _ => match geocode_result ?r2 with _ => _ end | None => _ end] =>
        destruct (geocode_result r1) as [s1|]; [destruct (geocode_result r2) as [e1|]|]
    end; eexists _, _, _, _, _; (split; [reflexivity|]); auto.
  - pose proof (handle_message_idle user text w) as Hrun. cbv zeta in Hrun.
    rewrite (Hrun Hg Ha). clear Hrun.
    match goal with
    | |- context [if ?c then _ else _] => destruct c
    end.
    + match goal with
      | |- context [match geocode_result ?r1 with Some _ => match geocode_result ?r2 with _ => _ end | None => _ end] =>
          destruct (geocode_result r1) as [s1|]; [destruct (geocode_result r2) as [e1|]|]
      end; eexists _, _, _, _, _; (split; [reflexivity|]); auto.
    + eexists _, [], _, _, _. split; [reflexivity|by left].
Qed.

Definition sender (u : Update) : User :=
  match u with
  | CommandStart user | CommandHelp user | CallbackQuery user _ | TextMessage user _ => user
  end.

Lemma curated_empty : curated empty_session.
Proof. unfold curated. split; [|split]; intros ? [=]. Qed.

Lemma curated_session_of w user_id :
  map_Forall (fun _ s => curated s) (user_sessions w) -> curated (session_of w user_id).
Proof.
  intros Hw. unfold session_of.
  destruct (user_sessions w !! user_id) as [s|] eqn:E; [by apply (Hw user_id)|].
  apply curated_empty.
Qed.

Lemma list_getitem_elem_of {A} (l : list A) (i : Z) (x : A) :
  list_getitem l i = Ok x -> x ∈ l.
Proof.
  intros Hx.
  destruct (list_getitem_cases l i) as [(_ & y & Hy & Hg)|[(_ & y & Hy & Hg)|(_ & Hg)]];
    rewrite Hx in Hg; simplify_eq; by eapply list_elem_of_lookup_2.
Qed.

Lemma place_names_of_list l r :
  l ∈ [nature_places; food_places; views_places] -> r ∈ l -> name r ∈ place_names.
Proof.
  intros Hl Hr. unfold place_names. apply list_elem_of_fmap_2.
  rewrite !elem_of_app.
  repeat (apply elem_of_cons in Hl as [->|Hl]; [tauto|]).
  by apply elem_of_nil in Hl.
Qed.

Lemma curated_callback_effect data s r s' cs :
  curated s -> callback_effect data s r s' cs -> curated s'.
Proof.
  intros Hs Heff. pose proof Hs as (Hrecs & Hdest & Hflag).
  destruct Heff as [|?|d ?|d recs ? ->|d idx p ? ? ? Hget|????|???|????|?????].
  - apply curated_empty.
  - exact Hs.
  - exact Hs.
  - split; [|exact (conj Hdest Hflag)].
    cbn [recommendations set_recommendations]. intros l [= <-].
    destruct (FALLBACK_PLACES !! default "nature" (mood s)) as [l|] eqn:E;
      cbn [default from_option id].
    + destruct (FALLBACK_PLACES_Some _ _ E) as [[_ ->]|[[_ ->]|[_ ->]]];
        repeat first [apply list_elem_of_here | apply list_elem_of_further].
    + apply list_elem_of_here.
  - assert (Hp : name p ∈ place_names).
    { destruct (recommendations s) as [l|] eqn:E; cbn [default from_option id] in Hget.
      - eapply place_names_of_list; [by apply Hrecs|by eapply list_getitem_elem_of].
      - by apply list_getitem_elem_of, elem_of_nil in Hget. }
    split; [exact Hrecs|]. split.
    + cbn [destination set_awaiting_start set_destination]. by intros n [= <-].
    + cbn [awaiting_start destination set_awaiting_start set_destination].
      intros b [= <-]. split; [done|by eexists].
  - exact Hs.
  - exact Hs.
  - exact Hs.
  - exact Hs.
Qed.

(** X4. A handler touches no session but the sender's: whatever the update
    (a command, a callback key, a text) and whatever the service answers,
    the session stored for any other user is the same afterwards. *)
Theorem handlers_touch_only_sender (u : Update) (other : string) (w : World) :
  other <> pretty (effective_user_id (sender u)) ->
  user_sessions (dispatch u w).2 !! other = user_sessions w !! other.
Proof.
  intros Hother. destruct u as [user|user|user data|user text]; cbn [dispatch sender] in *.
  - rewrite start_command_run. cbn [snd user_sessions]. by rewrite lookup_insert_ne.
  - reflexivity.
  - destruct (handle_callback_summary user data w) as (r & s' & cs & -> & _).
    cbn [snd user_sessions]. by rewrite lookup_insert_ne.
  - destruct (handle_message_summary user text w) as (ss' & cs & msg & kb & pm & -> & [->| ->]);
      cbn [snd user_sessions]; [done|]. by rewrite lookup_insert_ne.
Qed.

(** X5. Every text message is answered: for any text, any session and any
    behaviour of the geocoding service, [handle_message] returns without an
    exception and the last thing it does is send a message to the user. *)
Theorem text_message_is_always_answered (user : User) (text : string) (w : World) :
  exists msg kb pm,
    (handle_message user text w).1 = Ok tt /\
    last (calls (handle_message user text w).2) = Some (reply_text msg kb pm).
Proof.
  destruct (handle_message_summary user text w) as (ss' & cs & msg & kb & pm & -> & _).
  exists msg, kb, pm. split; [done|].
  cbn [snd calls]. rewrite !app_assoc. apply last_snoc.
Qed.

(** X6. [handle_callback] raises only on a place key: when it raises, the
    callback key starts with [place_] and either what follows is no integer
    ([ValueError]) or the index lies below minus the number of
    recommendations ([IndexError]); the callback has been answered, nothing
    else was sent and the sender's session is as it was. *)
Theorem handle_callback_raises_only_on_place_keys (user : User) (data : string)
    (e : exn) (w : World) :
  let user_id := pretty (effective_user_id user) in
  let recs := default [] (recommendations (session_of w user_id)) in
  let w' := (handle_callback user data w).2 in
  (handle_callback user data w).1 = Raise e ->
  startswith "place_" data = true /\
  ((e = ValueError /\ py_int (replace "place_" "" data) = None) \/
   (e = IndexError /\ exists idx, py_int (replace "place_" "" data) = Some idx /\
                                  idx < - Z.of_nat (length recs))) /\
  new_calls w w' = [answer] /\
  session_of w' user_id = session_of w user_id.
Proof.
  intros user_id recs w'. subst w'.
  destruct (handle_callback_summary user data w) as (r & s' & cs & -> & Heff).
  fold user_id in Heff. cbn [fst snd]. intros ->.
  rewrite new_calls_app, session_of_insert_eq.
  inversion Heff as [|?|?|?|?|?|d Hd Hint|d idx Hd Hint Hidx|?]; subst.
  - split; [apply startswith_app|]. split; [by left|done].
  - split; [apply startswith_app|]. split; [|done].
    right. split; [done|]. by exists idx.
Qed.

Lemma curated_dispatch u w :
  map_Forall (fun _ s => curated s) (user_sessions w) ->
  map_Forall (fun _ s => curated s) (user_sessions (dispatch u w).2).
Proof.
  intros Hw. destruct u as [user|user|user data|user text]; cbn [dispatch].
  - rewrite start_command_run. cbn [snd user_sessions].
    apply map_Forall_insert_2; [apply curated_empty|done].
  - done.
  - destruct (handle_callback_summary user data w) as (r & s' & cs & -> & Heff).
    cbn [snd user_sessions]. apply map_Forall_insert_2; [|done].
    eapply curated_callback_effect; [|exact Heff]. by apply curated_session_of.
  - destruct (handle_message_summary user text w)
      as (ss' & cs & msg & kb & pm & -> & [->| ->]); cbn [snd user_sessions]; [done|].
    apply map_Forall_insert_2; [apply curated_empty|done].
Qed.

Lemma curated_run_updates us w :
  map_Forall (fun _ s => curated s) (user_sessions w) ->
  map_Forall (fun _ s => curated s) (user_sessions (run_updates us w)).
Proof.
  revert w. induction us as [|u us IH]; intros w Hw; cbn [run_updates]; [done|].
  apply IH. by apply curated_dispatch.
Qed.

(** X7. An invariant of the whole bot. After any sequence of updates, from
    any users, with any callback keys and texts and any behaviour of the
    geocoding service, every stored session is curated: its recommendations
    are one of the three fixed lists, its destination is the name of one of
    the nine places, and its awaiting-start flag is [True] and comes with a
    destination. *)
Theorem sessions_stay_curated (us : list Update) :
  map_Forall (fun _ s => curated s) (user_sessions (run_updates us initial_world)).
Proof. apply curated_run_updates. cbn. apply map_Forall_empty. Qed.

(** X8. Menu navigation does not disturb a pending origin prompt: a
    callback key other than [mode_direct] that does not start with
    [place_] (the recommend button, a mood, a distance, an unknown key) is
    handled without an exception and leaves the destination and the
    awaiting-start flag of the sender's session as they were. *)
Theorem pending_origin_survives_menu_navigation (user : User) (data : string) (w : World) :
  let user_id := pretty (effective_user_id user) in
  let w' := (handle_callback user data w).2 in
  data <> "mode_direct" -> startswith "place_" data = false ->
  (handle_callback user data w).1 = Ok tt /\
  destination (session_of w' user_id) = destination (session_of w user_id) /\
  awaiting_start (session_of w' user_id) = awaiting_start (session_of w user_id).
Proof.
  intros user_id w' Hdirect Hplace. subst w'.
  destruct (handle_callback_summary user data w) as (r & s' & cs & -> & Heff).
  fold user_id in Heff. cbn [fst snd]. rewrite session_of_insert_eq.
  assert (Hnot : forall d, data <> "place_" +:+ d).
  { intros d ->. by rewrite startswith_app in Hplace. }
  destruct Heff as [|?|?|?|d|d|d|d|?]; try done; by destruct (Hnot d).
Qed.

(** X9. Unrecognised text gets the hint and nothing else: for a user who is
    not awaiting a start location, a text that is no greeting and lacks
    [from] or lacks [to] is answered with the hint to use /start; no
    geocoding request is made and no session changes. *)
Theorem unrecognised_text_gets_hint (user : User) (text : string) (w : World) :
  let user_id := pretty (effective_user_id user) in
  is_greeting text = false ->
  awaiting_start (session_of w user_id) <> Some true ->
  contains "from" (lower text) = false \/ contains "to" (lower text) = false ->
  handle_message user text w =
  (Ok tt,
   {| user_sessions := user_sessions w;
      calls := calls w ++ [reply_text "Try /start to plan a route!" None None] |}).
Proof.
  intros user_id Hg Ha Hkw.
  pose proof (handle_message_idle user text w) as Hrun. cbv zeta in Hrun.
  rewrite (Hrun Hg Ha).
  by destruct Hkw as [-> | ->]; rewrite ?andb_false_r.
Qed.

(** X10. Choosing the direct mode cancels a pending origin prompt: after
    the callback [mode_direct] the sender's session is [{"mode": "direct"}]
    whatever it was, so a following text that is no greeting and has no
    [from] gets the hint and is not geocoded as an origin. *)
Theorem mode_direct_cancels_pending_prompt (user : User) (text : string) (w : World) :
  let user_id := pretty (effective_user_id user) in
  let w1 := (handle_callback user "mode_direct" w).2 in
  is_greeting text = false ->
  contains "from" (lower text) = false ->
  session_of w1 user_id = direct_session /\
  handle_message user text w1 =
  (Ok tt,
   {| user_sessions := user_sessions w1;
      calls := calls w ++
        [answer; edit_message_text direct_prompt None None;
         reply_text "Try /start to plan a route!" None None] |}).
Proof.
  intros user_id w1 Hg Hfrom. subst w1.
  rewrite handle_callback_mode_direct. fold user_id. cbn [snd].
  split; [apply session_of_insert_eq|].
  pose proof (handle_message_idle user text
    {| user_sessions := <[user_id := direct_session]> (user_sessions w);
       calls := calls w ++ [answer; edit_message_text direct_prompt None None] |}) as Hrun.
  cbv zeta in Hrun. fold user_id in Hrun. rewrite session_of_insert_eq in Hrun.
  rewrite (Hrun Hg) by done. rewrite Hfrom. cbn [andb user_sessions calls].
  by rewrite <- app_assoc.
Qed.

(** ** The pieces of [split] *)

Lemma startswith_refl p : startswith p p = true.
Proof. induction p as [|a p IH]; [done|]. simpl. by rewrite decide_True. Qed.

Lemma str_length_app a b :
  String.length (a +:+ b) = (String.length a + String.length b)%nat.
Proof.
  induction a as [|c a IH]; [done|]. rewrite str_app_cons. simpl. by rewrite IH.
Qed.

Lemma startswith_app_long sep s b :
  (String.length sep <= String.length s)%nat ->
  startswith sep (s +:+ b) = startswith sep s.
Proof.
  revert s. induction sep as [|x sep IH]; intros s Hlen; [done|].
  destruct s as [|y s]; [simpl in Hlen; lia|].
  rewrite str_app_cons. simpl. destruct (decide (x = y)); [|done].
  apply IH. simpl in Hlen. lia.
Qed.

(** A separator that first occurs after [a] cuts [a] off as first piece. *)
Lemma split_first sep a b :
  sep <> "" -> occurrences sep (a +:+ sep) = 1%nat ->
  split sep (a +:+ sep +:+ b) = a :: split sep b.
Proof.
  intros Hsep. unfold split. induction a as [|c a IH].
  - intros _. destruct sep as [|x r]; [done|].
    rewrite str_app_nil_l, str_app_cons. cbn [split_from].
    rewrite <- str_app_cons, startswith_app.
    replace (String.length (String x r) - 1)%nat with (String.length r) by (simpl; lia).
    by rewrite split_from_skip.
  - rewrite !str_app_cons. cbn [occurrences split_from].
    assert (1 <= occurrences sep (a +:+ sep))%nat.
    { pose proof (occurrences_app_ge sep a sep).
      assert (1 <= occurrences sep sep)%nat; [|lia].
      destruct sep; [done|]. cbn [occurrences]. rewrite startswith_refl. lia. }
    intros Hocc.
    assert (Hno : startswith sep (String c (a +:+ sep)) = false).
    { destruct (startswith sep (String c (a +:+ sep))); [lia|done]. }
    rewrite <- (str_app_assoc a sep b), <- str_app_cons.
    rewrite startswith_app_long, Hno.
    + rewrite str_app_assoc, IH; [done|]. rewrite Hno in Hocc. lia.
    + cbn [String.length]. rewrite str_length_app. lia.
Qed.

(** X11. The destination of a typed route ends at the second [to]. When
    the lower-cased text is [a to b to c], [a] and [b] holding no [to], the
    origin is taken from [a] (every [from] cut out, stripped) and the
    destination is the stripped [b]; what follows the second [to] plays no
    part. If either comes out empty, only the hint is sent. *)
Theorem destination_ends_at_second_to (user : User) (text a b c : string) (w : World) :
  let user_id := pretty (effective_user_id user) in
  let start := strip (replace "from" "" a) in
  let end_ := strip b in
  let t := length (calls w) in
  let r1 := net (t + 1)%nat (geocode_url start) in
  let r2 := net (t + 2)%nat (geocode_url end_) in
  let hint := reply_text "Try /start to plan a route!" None None in
  lower text = a +:+ "to" +:+ b +:+ "to" +:+ c ->
  occurrences "to" (a +:+ "to") = 1%nat ->
  occurrences "to" (b +:+ "to") = 1%nat ->
  contains "from" (lower text) = true ->
  is_greeting text = false ->
  awaiting_start (session_of w user_id) <> Some true ->
  handle_message user text w =
  if str_nonempty start && str_nonempty end_ then
    (Ok tt,
     {| user_sessions := user_sessions w;
        calls := calls w ++
          [reply_text "📍 Finding locations..." None None;
           requests_get (geocode_url start) r1; requests_get (geocode_url end_) r2;
           match geocode_result r1, geocode_result r2 with
           | Some s, Some e =>
               reply_text (route_ready_text start end_ (route_url s e user_id))
                 None (Some "Markdown")
           | _, _ => hint
           end] |})
  else (Ok tt, {| user_sessions := user_sessions w; calls := calls w ++ [hint] |}).
Proof.
  intros user_id start end_ t r1 r2 hint Hlow Ha Hb Hfrom Hg Hw.
  assert (Hparts : split "to" (lower text) = a :: b :: split "to" c).
  { rewrite Hlow, split_first by done. by rewrite split_first. }
  assert (Hto : contains "to" (lower text) = true).
  { destruct (contains "to" (lower text)) eqn:E; [done|].
    apply contains_occurrences in E. rewrite Hlow in E.
    pose proof (occurrences_app_ge "to" a ("to" +:+ b +:+ "to" +:+ c)).
    pose proof (occurrences_at "to" (b +:+ "to" +:+ c)). lia. }
  pose proof (handle_message_idle user text w) as Hrun. cbv zeta in Hrun.
  rewrite (Hrun Hg Hw), Hparts, Hfrom, Hto. clear Hrun.
  cbn [lookup list_lookup default from_option id length Nat.ltb Nat.leb andb].
  fold start end_ user_id t. fold r1 r2.
  by destruct (str_nonempty start && str_nonempty end_).
Qed.

(** ** From the mood menu to the link *)

Lemma handle_message_awaiting_success user text w s e :
  let user_id := pretty (effective_user_id user) in
  let dest := default "" (destination (session_of w user_id)) in
  awaiting_start (session_of w user_id) = Some true ->
  geocodings (new_calls w (handle_message user text w).2) = [Some s; Some e] ->
  exists r1 r2,
    handle_message user text w =
    (Ok tt,
     {| user_sessions := <[user_id := empty_session]> (user_sessions w);
        calls := calls w ++
          [reply_text "📍 Finding locations..." None None;
           requests_get (geocode_url text) r1; requests_get (geocode_url dest) r2;
           reply_text (route_ready_text text dest (route_url s e user_id))
             None (Some "Markdown")] |}).
Proof.
  intros user_id dest Ha.
  destruct (is_greeting text) eqn:Hg.
  { rewrite handle_message_greeting, start_command_run by done.
    cbn [snd]. rewrite new_calls_app. discriminate. }
  pose proof (handle_message_awaiting user text w) as Hrun. cbv zeta in Hrun.
  specialize (Hrun Hg Ha). fold user_id in Hrun. fold dest in Hrun.
  rewrite Hrun. clear Hrun.
  set (r1 := net (length (calls w) + 1)%nat (geocode_url text)).
  set (r2 := net (length (calls w) + 2)%nat (geocode_url dest)).
  destruct (geocode_result r1) as [s1|] eqn:E1;
    destruct (geocode_result r2) as [e1|] eqn:E2;
    cbn [snd]; rewrite new_calls_app, geocodings_requests by done;
    rewrite ?E1, ?E2; intros [= <- <-] || intros [=].
  by exists r1, r2.
Qed.

(** The key of the [i]-th place button is read back as the index [i]. *)
Lemma place_key_index (i : nat) :
  (i < 3)%nat -> py_int (replace "place_" "" ("place_" +:+ pretty i)) = Some (Z.of_nat i).
Proof.
  intros Hi.
  assert (Hkey : exists k, replace "place_" "" ("place_" +:+ pretty i) = k /\
                           is_ascii k = true /\ (String.length k <= 640)%nat /\
                           ascii_int k = Some (Z.of_nat i)).
  { destruct i as [|[|[|i]]]; [..|exfalso; lia]; eexists;
      (split; [reflexivity|]); (split; [reflexivity|]);
      (split; [by apply Nat.leb_le|reflexivity]). }
  destruct Hkey as (k & -> & Hascii & Hlen & Hint).
  by rewrite py_int_ascii.
Qed.

(** X12. The menu path as a whole. A mood [m] of [FALLBACK_PLACES] is
    selected, then any distance, then the button shown for the [i]-th
    place [r], then a text for which both geocodings succeed. The keyboard
    shown after the distance holds that button in row [i]; the selection
    prompts for the origin of [r]; the text is geocoded as typed and the
    destination is the name of [r]; the link names both, and the session is
    empty afterwards. *)
Theorem menu_path_links_chosen_place (user : User) (m d text : string) (l : list Place)
    (i : nat) (r : Place) (w : World) (s e : float * float) :
  let user_id := pretty (effective_user_id user) in
  let button := Button ("📍 " +:+ name r) ("place_" +:+ pretty i) in
  let w1 := (handle_callback user ("mood_" +:+ m) w).2 in
  let w2 := (handle_callback user ("dist_" +:+ d) w1).2 in
  let w3 := (handle_callback user (callback_data button) w2).2 in
  let w4 := (handle_message user text w3).2 in
  FALLBACK_PLACES !! m = Some l ->
  l !! i = Some r ->
  geocodings (new_calls w3 w4) = [Some s; Some e] ->
  last (calls w2) =
    Some (edit_message_text (top_picks_text l) (Some (places_menu l)) (Some "Markdown")) /\
  places_menu l !! i = Some [button] /\
  last (calls w3) =
    Some (edit_message_text (destination_text (name r)) None (Some "Markdown")) /\
  (exists r1 r2,
     new_calls w3 w4 =
       [reply_text "📍 Finding locations..." None None;
        requests_get (geocode_url text) r1; requests_get (geocode_url (name r)) r2;
        reply_text (route_ready_text text (name r) (route_url s e user_id))
          None (Some "Markdown")]) /\
  session_of w4 user_id = empty_session.
Proof.
  intros user_id button w1 w2 w3 w4 Hm Hr.
  assert (Hrep : replace "mood_" "" ("mood_" +:+ m) = m).
  { destruct (FALLBACK_PLACES_Some m l Hm) as [[-> _]|[[-> _]|[-> _]]]; reflexivity. }
  assert (Hi : (i < 3)%nat).
  { apply lookup_lt_Some in Hr.
    destruct (FALLBACK_PLACES_Some m l Hm) as [[_ ->]|[[_ ->]|[_ ->]]]; exact Hr. }
  (* the mood *)
  pose proof (handle_callback_mood user m w) as E1. cbv zeta in E1.
  rewrite Hrep in E1. fold user_id in E1.
  subst w4 w3 w2 w1. rewrite E1. cbn [snd]. clear E1.
  (* the distance *)
  match goal with
  | |- context [handle_callback user ("dist_" +:+ d) ?w1] =>
      pose proof (handle_callback_dist user d w1) as E2
  end.
  cbv zeta in E2. fold user_id in E2. rewrite session_of_insert_eq in E2.
  cbn [mood set_mood default from_option id] in E2. rewrite Hm in E2.
  cbn [default from_option id] in E2.
  rewrite E2. cbn [snd user_sessions calls]. rewrite insert_insert_eq. clear E2.
  (* the place *)
  cbn [callback_data button].
  match goal with
  | |- context [handle_callback user ("place_" +:+ pretty i) ?w2] =>
      pose proof (handle_callback_place user (pretty i) w2) as E3
  end.
  cbv zeta in E3. fold user_id in E3. rewrite session_of_insert_eq in E3.
  rewrite place_key_index in E3 by done.
  cbn [recommendations set_recommendations default from_option id] in E3.
  assert (Hlt : Z.of_nat i < Z.of_nat (length l)).
  { apply lookup_lt_Some in Hr. lia. }
  rewrite (proj2 (Z.ltb_lt _ _) Hlt) in E3.
  assert (Hget : list_getitem l (Z.of_nat i) = Ok r).
  { unfold list_getitem.
    rewrite (proj2 (Z.ltb_ge _ _)), (proj2 (Z.leb_le _ _)), (proj2 (Z.ltb_lt _ _) Hlt) by lia.
    cbn [andb]. by rewrite Nat2Z.id, Hr. }
  rewrite Hget in E3. cbn [user_sessions calls] in E3.
  rewrite insert_insert_eq in E3.
  rewrite E3. cbn [snd]. clear E3.
  (* the text *)
  intros Hgeo.
  match type of Hgeo with
  | context [handle_message user text ?w3] =>
      pose proof (handle_message_awaiting_success user text w3 s e) as E4
  end.
  cbv zeta in E4. fold user_id in E4. rewrite session_of_insert_eq in E4.
  destruct (E4 eq_refl Hgeo) as (r1 & r2 & E5). clear E4.
  cbn [destination set_awaiting_start set_destination default from_option id] in E5.
  rewrite E5. cbn [snd calls].
  split; [by rewrite last_app_cons|].
  split.
  { unfold places_menu. rewrite list_lookup_imap, Hr. reflexivity. }
  split; [by rewrite last_app_cons|].
  split; [exists r1, r2; apply new_calls_app|].
  apply session_of_insert_eq.
Qed.

(** ** Menus and names *)

(** X13. The welcome always names the user: the name shown by
    [start_command] is the username when there is a non-empty one,
    otherwise the first name when that is not empty, otherwise [user_]
    followed by the user id, and it is never empty. *)
Theorem welcome_name_never_empty (user : User) (w : World) :
  let user_id := pretty (effective_user_id user) in
  exists shown,
    start_command user w =
    (Ok tt,
     {| user_sessions := <[user_id := empty_session]> (user_sessions w);
        calls := calls w ++
          [reply_text (welcome_text shown) (Some mode_menu) (Some "Markdown")] |}) /\
    shown <> "" /\
    (forall n, username user = Some n -> n <> "" -> shown = n) /\
    (username user = None \/ username user = Some "" ->
     (first_name user <> "" -> shown = first_name user) /\
     (first_name user = "" -> shown = "user_" +:+ user_id)).
Proof.
  intros user_id. eexists. split; [apply start_command_run|]. fold user_id.
  destruct (username user) as [[|c n]|]; destruct (first_name user) as [|c' f];
    cbn [or_str str_nonempty];
    (split; [discriminate|]);
    (split; [intros n' [= <-] ?; done || reflexivity|]);
    (intros [[=]|[=]] || intros _); split; intros ?; done.
Qed.

(** X14. The place buttons are uniquely keyed: in the keyboard built for
    any list of recommendations, two different rows carry different
    callback keys. *)
Theorem place_buttons_uniquely_keyed (recs : list Place) (i j : nat)
    (bi bj : InlineKeyboardButton) :
  places_menu recs !! i = Some [bi] ->
  places_menu recs !! j = Some [bj] ->
  i <> j ->
  callback_data bi <> callback_data bj.
Proof.
  unfold places_menu. rewrite !list_lookup_imap.
  destruct (recs !! i) as [ri|]; [|done]. destruct (recs !! j) as [rj|]; [|done].
  cbn. intros [= <-] [= <-] Hij. cbn [callback_data].
  intros Hkey. apply Hij. apply (inj (String.app "place_")) in Hkey.
  by apply (inj pretty) in Hkey.
Qed.

(** X15. Every callback is answered first, and [handle_callback] does
    nothing else to the outside than edit the menu message at most once: it
    sends no new message and never contacts the geocoding service, whatever
    the key and even when it raises. *)
Theorem callback_is_always_answered (user : User) (data : string) (w : World) :
  let w' := (handle_callback user data w).2 in
  new_calls w w' = [answer] \/
  exists text kb pm, new_calls w w' = [answer; edit_message_text text kb pm].
Proof.
  intros w'. subst w'.
  destruct (handle_callback_summary user data w) as (r & s' & cs & -> & Heff).
  cbn [snd]. rewrite new_calls_app.
  destruct Heff; eauto.
Qed.

(** X16. On the menu path the geocoder is only asked for a curated
    destination. In any state the bot can reach, when a user awaiting a
    start location sends a text that is no greeting, the two requests are
    for the text as typed and for the name of one of the nine places. *)
Theorem menu_destination_is_always_curated (us : list Update) (user : User) (text : string) :
  let user_id := pretty (effective_user_id user) in
  let w := run_updates us initial_world in
  let w' := (handle_message user text w).2 in
  awaiting_start (session_of w user_id) = Some true ->
  is_greeting text = false ->
  exists n r1 r2 c,
    n ∈ place_names /\
    destination (session_of w user_id) = Some n /\
    new_calls w w' =
      [reply_text "📍 Finding locations..." None None;
       requests_get (geocode_url text) r1; requests_get (geocode_url n) r2; c].
Proof.
  intros user_id w w' Ha Hg. subst w'.
  assert (Hcur : curated (session_of w user_id)).
  { apply curated_session_of, curated_run_updates. cbn. apply map_Forall_empty. }
  destruct Hcur as (_ & Hdest & Hflag).
  destruct (Hflag _ Ha) as (_ & n & Hn).
  pose proof (handle_message_awaiting user text w) as Hrun. cbv zeta in Hrun.
  specialize (Hrun Hg Ha). fold user_id in Hrun. rewrite Hn in Hrun.
  cbn [default from_option id] in Hrun. rewrite Hrun. clear Hrun.
  exists n. 
  match goal with
  | |- context [match geocode_result ?r1 with Some _ => match geocode_result ?r2 with _ => _ end | None => _ end] =>
      exists r1, r2;
      destruct (geocode_result r1) as [s1|]; [destruct (geocode_result r2) as [e1|]|]
  end; eexists; (split; [by apply Hdest|]); (split; [done|]);
    cbn [snd]; by rewrite new_calls_app.
Qed.

(** X17. A distance selection always offers three places: whatever mood is
    recorded (a mood of the menu, any other text, or none) and whatever the
    key after [dist_], the recommendations stored are one of the three
    fixed lists and the keyboard shown has three rows. *)
Theorem distance_selection_offers_three_places (user : User) (d : string) (w : World) :
  let user_id := pretty (effective_user_id user) in
  let w' := (handle_callback user ("dist_" +:+ d) w).2 in
  exists recs,
    recommendations (session_of w' user_id) = Some recs /\
    recs ∈ [nature_places; food_places; views_places] /\
    last (calls w') =
      Some (edit_message_text (top_picks_text recs) (Some (places_menu recs))
              (Some "Markdown")) /\
    length (places_menu recs) = 3%nat.
Proof.
  intros user_id w'. subst w'.
  rewrite handle_callback_dist. fold user_id. cbn [snd calls].
  rewrite session_of_insert_eq.
  set (recs := default nature_places
                 (FALLBACK_PLACES !! default "nature" (mood (session_of w user_id)))).
  assert (Hin : recs ∈ [nature_places; food_places; views_places]).
  { unfold recs.
    destruct (FALLBACK_PLACES !! default "nature" (mood (session_of w user_id)))
      as [l|] eqn:E; cbn [default from_option id].
    - destruct (FALLBACK_PLACES_Some _ _ E) as [[_ ->]|[[_ ->]|[_ ->]]];
        repeat first [apply list_elem_of_here | apply list_elem_of_further].
    - apply list_elem_of_here. }
  exists recs. split; [done|]. split; [done|]. split; [by rewrite last_app_cons|].
  unfold places_menu. rewrite length_imap.
  repeat (apply elem_of_cons in Hin as [->|Hin]; [reflexivity|]).
  by apply elem_of_nil in Hin.
Qed.

(** X18. The free-text path does not see the case of the letters: for a
    user who is not awaiting a start location, two texts with the same
    lower-cased form are handled alike, calls and sessions included. *)
Theorem free_text_is_case_insensitive (user : User) (text1 text2 : string) (w : World) :
  let user_id := pretty (effective_user_id user) in
  awaiting_start (session_of w user_id) <> Some true ->
  lower text1 = lower text2 ->
  handle_message user text1 w = handle_message user text2 w.
Proof.
  intros user_id Ha Hlow.
  assert (Hg : is_greeting text1 = is_greeting text2).
  { unfold is_greeting. by rewrite Hlow. }
  destruct (is_greeting text2) eqn:Hg2.
  - by rewrite !handle_message_greeting.
  - pose proof (handle_message_idle user text1 w) as H1.
    pose proof (handle_message_idle user text2 w) as H2.
    cbv zeta in H1, H2. rewrite (H1 Hg Ha), (H2 Hg2 Ha), Hlow. reflexivity.
Qed.

End Bot.

(* ===================================================================== *)
(** * Part 6: the handlers run on sample data                             *)
(* ===================================================================== *)

(** Strings for the sample runs. The texts, callback keys and moods of the
    runs below are ASCII, and on ASCII text [lower], [strip], [title] and
    [int] are the functions of Part 1 whatever the interpreter; this
    instance takes them on all text. *)
#[global] Instance AsciiStr : PyStr := {|
  lower := ascii_lower;
  strip := ascii_strip;
  title := ascii_title;
  py_int := ascii_int;
  lower_ascii := fun s _ => eq_refl;
  strip_ascii := fun s _ => eq_refl;
  title_ascii := fun s _ => eq_refl;
  py_int_ascii := fun s _ _ => eq_refl;
  strip_head := fun c s _ => ascii_strip_head c s
|}.

(** A numeral [-]digits.digits. *)
Fixpoint decimal_tail (seen_dot after_digit : bool) (s : string) : bool :=
  match s with
  | EmptyString => seen_dot && after_digit
  | String c s' =>
      if bool_decide (is_Some (digit_val c)) then decimal_tail seen_dot true s'
      else if bool_decide (c = "."%char) && negb seen_dot && after_digit
           then decimal_tail true false s'
           else false
  end.

Definition is_decimal (s : string) : bool :=
  match s with
  | String "-"%char s' => decimal_tail false false s'
  | _ => decimal_tail false false s
  end.

(** Floats for the sample runs: a float is kept as the decimal numeral that
    prints it, which is how Python prints the coordinates used below. *)
#[global] Instance TextFloat : PyFloat := {|
  float := string;
  float_of_str s := if is_decimal (ascii_strip s) then Some (ascii_strip s) else None;
  float_of_int n := Some (pretty n +:+ ".0");
  float_truth x := negb (bool_decide (x ∈ ["0.0"; "-0.0"]));
  str_float x := x
|}.

Definition sample_match (display_name lat lon : string) : Response :=
  http_body (Some (PList
    [PDict [("display_name", PStr display_name); ("lat", PStr lat); ("lon", PStr lon)]])).

(** A geocoding service that knows four places and finds nothing else. *)
Definition sample_net (t : nat) (url : string) : Response :=
  if decide (url = geocode_url "Orchard Road") then
    sample_match "Orchard Road, Singapore" "1.3048" "103.8318"
  else if decide (url = geocode_url "Tiong Bahru") then
    sample_match "Tiong Bahru, Singapore" "1.2847" "103.8321"
  else if decide (url = geocode_url "marina bay") then
    sample_match "Marina Bay, Singapore" "1.2834" "103.8607"
  else if decide (url = geocode_url "east coast park") then
    sample_match "East Coast Park, Singapore" "1.3008" "103.9122"
  else http_body (Some (PList [])).

(** The default of [APP_URL]. *)
Definition sample_app_url : string := "https://thermal-optimizers-coolride-engine.hf.space".

Definition alice : User :=
  {| effective_user_id := 42; username := Some "alice"; first_name := "Alice" |}.

Definition world_fresh : World := {| user_sessions := ∅; calls := [] |}.

(** Alice chose the direct mode. *)
Definition world_direct : World :=
  {| user_sessions :=
       {[ "42" := {| mode := Some "direct"; mood := None; recommendations := None;
                     destination := None; awaiting_start := None |} ]};
     calls := [] |}.

(** Alice was shown the nature places. *)
Definition world_picks : World :=
  {| user_sessions :=
       {[ "42" := {| mode := None; mood := Some "nature";
                     recommendations := Some nature_places;
                     destination := None; awaiting_start := None |} ]};
     calls := [] |}.

(** Alice picked Tiong Bahru and is asked where she starts. *)
Definition world_awaiting : World :=
  {| user_sessions :=
       {[ "42" := {| mode := None; mood := Some "food";
                     recommendations := Some food_places;
                     destination := Some "Tiong Bahru"; awaiting_start := Some true |} ]};
     calls := [] |}.

Example sample_geocode :
  (geocode_location sample_net "Orchard Road" world_fresh).1 = Ok (Some ("1.3048", "103.8318")) /\
  (geocode_location sample_net "Atlantis" world_fresh).1 = Ok None.
Proof. split; vm_compute; reflexivity. Qed.

Example sample_scenario :
  let w1 := (start_command alice world_fresh).2 in
  let w2 := (handle_callback alice "mode_recommend" w1).2 in
  let w3 := (handle_callback alice "mood_food" w2).2 in
  let w4 := (handle_callback alice "dist_medium" w3).2 in
  let w5 := (handle_callback alice "place_0" w4).2 in
  let w6 := (handle_message sample_net sample_app_url alice "Orchard Road" w5).2 in
  session_of w5 "42" = session_of world_awaiting "42" /\
  last (calls w6) = Some (reply_text
    (route_ready_text "Orchard Road" "Tiong Bahru"
       "https://thermal-optimizers-coolride-engine.hf.space?start=1.3048,103.8318&end=1.2847,103.8321&tg=42")
    None (Some "Markdown")) /\
  session_of w6 "42" = empty_session.
Proof. repeat split; vm_compute; reflexivity. Qed.



(** C2, the free-text path: Alice, in the direct mode, types a route. The
    link is the last thing sent and her session is still the one of the
    direct mode, not the empty one; the menu path of [sample_scenario]
    does reset it. *)
Theorem C2_free_text_route_keeps_session :
  let run := handle_message sample_net sample_app_url alice
               "From Marina Bay to East Coast Park" world_direct in
  run.1 = Ok tt /\
  last (calls run.2) = Some (reply_text
    (route_ready_text "marina bay" "east coast park"
       "https://thermal-optimizers-coolride-engine.hf.space?start=1.2834,103.8607&end=1.3008,103.9122&tg=42")
    None (Some "Markdown")) /\
  session_of run.2 "42" = session_of world_direct "42" /\
  session_of run.2 "42" <> empty_session.
Proof. repeat split; vm_compute; (reflexivity || discriminate). Qed.

(** C3, a negative index: the callback key [place_-1] passes the test
    [idx < len(recs)] and selects the last of the three places shown to
    Alice; the destination is stored, the flag set and a message sent. *)
Theorem C3_negative_index_selects_last :
  let run := handle_callback alice "place_-1" world_picks in
  run.1 = Ok tt /\
  session_of run.2 "42" =
    {| mode := None; mood := Some "nature"; recommendations := Some nature_places;
       destination := Some "Punggol Waterway"; awaiting_start := Some true |} /\
  session_of run.2 "42" <> session_of world_picks "42" /\
  calls run.2 =
    [answer;
     edit_message_text (destination_text "Punggol Waterway") None (Some "Markdown")].
Proof. repeat split; vm_compute; (reflexivity || discriminate). Qed.

(** C4 at work: Alice, awaiting a start location, types a place the
    service does not find. *)
Lemma C4_geocoding_failure_witness :
  exists r1 r2,
    handle_message sample_net sample_app_url alice "Atlantis" world_awaiting =
    (Ok tt,
     {| user_sessions := user_sessions world_awaiting;
        calls := calls world_awaiting ++
          [reply_text "📍 Finding locations..." None None;
           requests_get (geocode_url "Atlantis") r1;
           requests_get (geocode_url "Tiong Bahru") r2;
           reply_text "😕 Couldn't find location. Try again." None None] |}) /\
    session_of (handle_message sample_net sample_app_url alice "Atlantis" world_awaiting).2 "42"
    = session_of world_awaiting "42".
Proof.
  apply (C4_geocoding_failure_keeps_session sample_net sample_app_url alice
           "Atlantis" world_awaiting).
  - reflexivity.
  - left. exists (http_body (Some (PList []))). split; [|reflexivity].
    apply list_elem_of_further, list_elem_of_here.
Defined.

(** C5 at work: a greeting in capitals with blanks around it, sent while
    awaiting a start location. *)
Lemma C5_greeting_witness :
  handle_message sample_net sample_app_url alice "  HeLLo " world_awaiting =
  (Ok tt,
   {| user_sessions := <["42" := empty_session]> (user_sessions world_awaiting);
      calls := [reply_text (welcome_text "alice") (Some mode_menu) (Some "Markdown")] |}).
Proof.
  apply (C5_greeting_resets_session sample_net sample_app_url alice "  HeLLo " world_awaiting).
  apply list_elem_of_further, list_elem_of_here.
Defined.

(** C6 at work: the mood [food], then the distance [dist_medium]. *)
Lemma C6_mood_then_distance_witness :
  (exists w1 w2,
     handle_callback alice ("mood_" +:+ "food") world_fresh = (Ok tt, w1) /\
     new_calls world_fresh w1 =
       [answer;
        edit_message_text (how_far_text "food") (Some distance_menu) (Some "Markdown")] /\
     handle_callback alice ("dist_" +:+ "medium") w1 = (Ok tt, w2) /\
     recommendations (session_of w2 "42") = Some food_places /\
     length food_places = 3%nat /\
     new_calls w1 w2 =
       [answer;
        edit_message_text (top_picks_text food_places) (Some (places_menu food_places))
          (Some "Markdown")]) /\
  (mood (session_of world_fresh "42") = None ->
   exists w2,
     handle_callback alice ("dist_" +:+ "medium") world_fresh = (Ok tt, w2) /\
     recommendations (session_of w2 "42") = Some nature_places).
Proof.
  apply (C6_mood_then_distance alice "food" "medium" food_places world_fresh).
  reflexivity.
Defined.

(** C9 as stated fails: the key [mood_mood_food] records the mood [food],
    which is not what follows the prefix, and the distance selection that
    follows stores the food places, not the nature places. *)
Lemma C9_mood_counterexample :
  let w1 := (handle_callback alice ("mood_" +:+ "mood_food") world_fresh).2 in
  let w2 := (handle_callback alice "dist_short" w1).2 in
  mood (session_of w1 "42") = Some "food" /\
  mood (session_of w1 "42") <> Some "mood_food" /\
  ("mood_food" ∉ ["nature"; "food"; "views"]) /\
  recommendations (session_of w2 "42") = Some food_places /\
  recommendations (session_of w2 "42") <> Some nature_places.
Proof.
  repeat split; try (vm_compute; (reflexivity || discriminate)).
  intros Hin. repeat (apply elem_of_cons in Hin as [Hin|Hin]; [discriminate|]).
  by apply elem_of_nil in Hin.
Qed.

(** C9 at work on a key the menu never sends. *)
Lemma C9_mood_is_not_validated_witness :
  (exists w1,
     handle_callback alice ("mood_" +:+ "rain") world_fresh = (Ok tt, w1) /\
     mood (session_of w1 "42") = Some "rain") /\
  (exists w2,
     handle_callback alice ("dist_" +:+ "short")
       (handle_callback alice ("mood_" +:+ "rain") world_fresh).2 = (Ok tt, w2) /\
     recommendations (session_of w2 "42") = Some nature_places).
Proof.
  pose proof (C9_mood_is_not_validated alice "rain" "short" world_fresh) as (H1 & _ & _ & _).
  pose proof (C9_mood_is_not_validated alice "rain" "short"
                (handle_callback alice ("mood_" +:+ "rain") world_fresh).2) as (_ & _ & _ & H4).
  split; [exact H1|].
  apply (H4 "rain"); [reflexivity|].
  intros Hin. repeat (apply elem_of_cons in Hin as [Hin|Hin]; [discriminate|]).
  by apply elem_of_nil in Hin.
Defined.

(** C10 as stated fails: in [from fromville to bedok] the word [to] occurs
    once and both names are not blank, yet the geocoder is asked for
    [ville]: the [from] inside the origin is cut out as well. *)
Lemma C10_from_to_counterexample :
  let X := " fromville " in
  let Y := " bedok" in
  let text := "from" +:+ X +:+ "to" +:+ Y in
  let run := handle_message sample_net sample_app_url alice text world_fresh in
  occurrences "to" (lower text) = 1%nat /\
  strip X <> "" /\ strip Y <> "" /\
  awaiting_start (session_of world_fresh "42") <> Some true /\
  lower (strip X) = "fromville" /\
  calls run.2 !! 1%nat =
    Some (requests_get (geocode_url "ville") (http_body (Some (PList [])))) /\
  geocode_url "ville" <> geocode_url (lower (strip X)).
Proof. repeat split; vm_compute; (reflexivity || discriminate). Qed.

(** C10 at work: the example the bot itself gives. *)
Lemma C10_from_to_parsing_witness :
  exists r1 r2,
    handle_message sample_net sample_app_url alice
      "From Marina Bay to East Coast Park" world_direct =
    (Ok tt,
     {| user_sessions := user_sessions world_direct;
        calls := calls world_direct ++
          [reply_text "📍 Finding locations..." None None;
           requests_get (geocode_url "marina bay") r1;
           requests_get (geocode_url "east coast park") r2;
           match geocode_result r1, geocode_result r2 with
           | Some s, Some e =>
               reply_text
                 (route_ready_text "marina bay" "east coast park"
                    (route_url sample_app_url s e "42"))
                 None (Some "Markdown")
           | _, _ => reply_text "Try /start to plan a route!" None None
           end] |}).
Proof.
  refine (C10_from_to_parsing sample_net sample_app_url alice
            "From Marina Bay to East Coast Park" " marina bay " " east coast park"
            world_direct eq_refl eq_refl eq_refl _ _ _);
    discriminate.
Defined.

(** The reset on the menu path at work: Alice types Orchard Road. *)
Lemma awaiting_success_witness :
  user_sessions (handle_message sample_net sample_app_url alice "Orchard Road" world_awaiting).2
    = <["42" := empty_session]> (user_sessions world_awaiting) /\
  session_of (handle_message sample_net sample_app_url alice "Orchard Road" world_awaiting).2 "42"
    = empty_session /\
  last (calls (handle_message sample_net sample_app_url alice "Orchard Road" world_awaiting).2) =
    Some (reply_text
            (route_ready_text "Orchard Road" "Tiong Bahru"
               (route_url sample_app_url ("1.3048", "103.8318") ("1.2847", "103.8321") "42"))
            None (Some "Markdown")).
Proof.
  apply (awaiting_success_resets_session sample_net sample_app_url alice "Orchard Road"
           world_awaiting ("1.3048", "103.8318") ("1.2847", "103.8321")).
  - reflexivity.
  - vm_compute. reflexivity.
Defined.

(** A place button pressed when no recommendations are stored. *)
Lemma place_index_too_large_witness :
  exists w',
    handle_callback alice ("place_" +:+ "0") world_fresh = (Ok tt, w') /\
    new_calls world_fresh w' = [answer] /\
    session_of w' "42" = session_of world_fresh "42" /\
    (forall other, other <> "42" ->
       user_sessions w' !! other = user_sessions world_fresh !! other).
Proof.
  apply (place_index_too_large_ignored alice "0" 0 world_fresh).
  - reflexivity.
  - vm_compute. discriminate.
Defined.

(** The second of the places shown to Alice. *)
Lemma place_index_in_range_witness :
  exists w',
    handle_callback alice ("place_" +:+ "1") world_picks = (Ok tt, w') /\
    destination (session_of w' "42") = Some "East Coast Park" /\
    awaiting_start (session_of w' "42") = Some true /\
    new_calls world_picks w' =
      [answer; edit_message_text (destination_text "East Coast Park") None (Some "Markdown")].
Proof.
  apply (place_index_in_range_selects alice "1" 1
           {| name := "East Coast Park"; reason := "Beachside cycling with sea breeze" |}
           world_picks).
  - reflexivity.
  - vm_compute. discriminate.
  - reflexivity.
Defined.

(** ** The further properties at work *)

(** Alice is awaiting a start location, Bob is in the direct mode. *)
Definition bob : User :=
  {| effective_user_id := 7; username := None; first_name := "Bob" |}.

Definition world_two : World :=
  {| user_sessions := <["7" := direct_session]> (user_sessions world_awaiting);
     calls := [] |}.

(** The menu path of Alice up to the place selection, as updates. *)
Definition alice_menu_path : list Update :=
  [CommandStart alice; CallbackQuery alice "mode_recommend";
   CallbackQuery alice "mood_food"; CallbackQuery alice "dist_medium";
   CallbackQuery alice "place_0"].

(** Alice chooses the direct mode; Bob's session is not touched. *)
Lemma handlers_touch_only_sender_witness :
  user_sessions (dispatch sample_net sample_app_url
                   (CallbackQuery alice "mode_direct") world_two).2 !! "7"
  = user_sessions world_two !! "7".
Proof.
  apply (handlers_touch_only_sender sample_net sample_app_url
           (CallbackQuery alice "mode_direct") "7" world_two).
  intros Hx. vm_compute in Hx. discriminate Hx.
Defined.

(** A place key that is no number. *)
Lemma handle_callback_raises_witness :
  startswith "place_" "place_abc" = true /\
  ((ValueError = ValueError /\ py_int (replace "place_" "" "place_abc") = None) \/
   (ValueError = IndexError /\
    exists idx, py_int (replace "place_" "" "place_abc") = Some idx /\
      idx < - Z.of_nat (length (default [] (recommendations (session_of world_picks "42")))))) /\
  new_calls world_picks (handle_callback alice "place_abc" world_picks).2 = [answer] /\
  session_of (handle_callback alice "place_abc" world_picks).2 "42" = session_of world_picks "42".
Proof.
  apply (handle_callback_raises_only_on_place_keys alice "place_abc" ValueError world_picks).
  reflexivity.
Defined.

(** Alice, awaiting a start location, presses an old mood button. *)
Lemma pending_origin_survives_witness :
  (handle_callback alice "mood_food" world_awaiting).1 = Ok tt /\
  destination (session_of (handle_callback alice "mood_food" world_awaiting).2 "42")
  = destination (session_of world_awaiting "42") /\
  awaiting_start (session_of (handle_callback alice "mood_food" world_awaiting).2 "42")
  = awaiting_start (session_of world_awaiting "42").
Proof.
  apply (pending_origin_survives_menu_navigation alice "mood_food" world_awaiting).
  - discriminate.
  - reflexivity.
Defined.

Lemma unrecognised_text_witness :
  handle_message sample_net sample_app_url alice "where can I cycle?" world_fresh =
  (Ok tt,
   {| user_sessions := user_sessions world_fresh;
      calls := calls world_fresh ++ [reply_text "Try /start to plan a route!" None None] |}).
Proof.
  apply (unrecognised_text_gets_hint sample_net sample_app_url alice
           "where can I cycle?" world_fresh).
  - reflexivity.
  - discriminate.
  - left. reflexivity.
Defined.

(** Alice, awaiting a start location, switches to the direct mode and then
    types a place name. *)
Lemma mode_direct_cancels_witness :
  session_of (handle_callback alice "mode_direct" world_awaiting).2 "42" = direct_session /\
  handle_message sample_net sample_app_url alice "Orchard Road"
    (handle_callback alice "mode_direct" world_awaiting).2 =
  (Ok tt,
   {| user_sessions := user_sessions (handle_callback alice "mode_direct" world_awaiting).2;
      calls := calls world_awaiting ++
        [answer; edit_message_text direct_prompt None None;
         reply_text "Try /start to plan a route!" None None] |}).
Proof.
  apply (mode_direct_cancels_pending_prompt sample_net sample_app_url alice
           "Orchard Road" world_awaiting); reflexivity.
Defined.

(** A route to Sentosa: the destination asked for is [sen]. *)
Lemma destination_ends_at_second_to_witness :
  handle_message sample_net sample_app_url alice "from marina bay to sentosa" world_fresh =
  (Ok tt,
   {| user_sessions := user_sessions world_fresh;
      calls := calls world_fresh ++
        [reply_text "📍 Finding locations..." None None;
         requests_get (geocode_url "marina bay")
           (sample_net 1 (geocode_url "marina bay"));
         requests_get (geocode_url "sen") (sample_net 2 (geocode_url "sen"));
         reply_text "Try /start to plan a route!" None None] |}).
Proof.
  refine (destination_ends_at_second_to sample_net sample_app_url alice
            "from marina bay to sentosa" "from marina bay " " sen" "sa" world_fresh
            eq_refl eq_refl eq_refl eq_refl eq_refl _).
  discriminate.
Defined.

(** Alice's whole menu path: food, any distance, the first button, then
    Orchard Road. *)
Lemma menu_path_witness :
  let button := Button ("📍 " +:+ "Tiong Bahru") ("place_" +:+ "0") in
  let w1 := (handle_callback alice ("mood_" +:+ "food") world_fresh).2 in
  let w2 := (handle_callback alice ("dist_" +:+ "medium") w1).2 in
  let w3 := (handle_callback alice (callback_data button) w2).2 in
  let w4 := (handle_message sample_net sample_app_url alice "Orchard Road" w3).2 in
  last (calls w2) =
    Some (edit_message_text (top_picks_text food_places) (Some (places_menu food_places))
            (Some "Markdown")) /\
  places_menu food_places !! 0%nat = Some [button] /\
  last (calls w3) =
    Some (edit_message_text (destination_text "Tiong Bahru") None (Some "Markdown")) /\
  (exists r1 r2,
     new_calls w3 w4 =
       [reply_text "📍 Finding locations..." None None;
        requests_get (geocode_url "Orchard Road") r1;
        requests_get (geocode_url "Tiong Bahru") r2;
        reply_text
          (route_ready_text "Orchard Road" "Tiong Bahru"
             (route_url sample_app_url ("1.3048", "103.8318") ("1.2847", "103.8321") "42"))
          None (Some "Markdown")]) /\
  session_of w4 "42" = empty_session.
Proof.
  apply (menu_path_links_chosen_place sample_net sample_app_url alice "food" "medium"
           "Orchard Road" food_places 0
           {| name := "Tiong Bahru"; reason := "Hip cafes in heritage shophouses" |}
           world_fresh ("1.3048", "103.8318") ("1.2847", "103.8321")).
  - reflexivity.
  - reflexivity.
  - vm_compute. reflexivity.
Defined.

(** The first two of the nature buttons. *)
Lemma place_buttons_uniquely_keyed_witness :
  callback_data (Button "📍 Botanic Gardens" "place_0") <>
  callback_data (Button "📍 East Coast Park" "place_1").
Proof.
  apply (place_buttons_uniquely_keyed nature_places 0 1
           (Button "📍 Botanic Gardens" "place_0") (Button "📍 East Coast Park" "place_1"));
    [reflexivity|reflexivity|discriminate].
Defined.

(** After her menu path Alice types Orchard Road: the second request is for
    Tiong Bahru, one of the nine places. *)
Lemma menu_destination_witness :
  exists n r1 r2 c,
    n ∈ place_names /\
    destination (session_of (run_updates sample_net sample_app_url alice_menu_path
                               initial_world) "42") = Some n /\
    new_calls (run_updates sample_net sample_app_url alice_menu_path initial_world)
      (handle_message sample_net sample_app_url alice "Orchard Road"
         (run_updates sample_net sample_app_url alice_menu_path initial_world)).2 =
      [reply_text "📍 Finding locations..." None None;
       requests_get (geocode_url "Orchard Road") r1; requests_get (geocode_url n) r2; c].
Proof.
  apply (menu_destination_is_always_curated sample_net sample_app_url alice_menu_path
           alice "Orchard Road").
  - vm_compute. reflexivity.
  - reflexivity.
Defined.

Lemma free_text_case_witness :
  handle_message sample_net sample_app_url alice "FROM Marina Bay TO East Coast Park" world_direct
  = handle_message sample_net sample_app_url alice "from marina bay to east coast park" world_direct.
Proof.
  apply (free_text_is_case_insensitive sample_net sample_app_url alice
           "FROM Marina Bay TO East Coast Park" "from marina bay to east coast park"
           world_direct).
  - discriminate.
  - reflexivity.
Defined.
